(** * Knowledge ledger of bio-architect: a shallow embedding.

    Sources embedded here:
    - [src/src/databases/datatypes/knowledge/models.py]: the data model and
      the confidence validator;
    - [src/src/databases/datatypes/knowledge/repository.py]: the
      session-based repository ([get_knowledge], [list_active], [get_by_tag],
      [get_linked_to], [validate_link_target_exists], [save_knowledge],
      [supersede]), used by the CLI;
    - [src/cli/databases/knowledge.py]: [cmd_create], [parse_knowledge_json]
      and the JSON output;
    - [src/src/databases/repositories/knowledge.py]: the sibling sqlite
      repository;
    - [src/scripts/knowledge.py]: the commands [cmd_add] and
      [cmd_supersede] over the sqlite repository;
    - [src/src/databases/clients/sqlite/client.py]: the schema (primary keys,
      foreign keys) that the row store enforces.

    Identifiers (UUIDs) are natural numbers; timestamps are natural numbers
    ordered like the ISO-8601 strings the store compares; confidence is a
    rational number (the float comparisons [v < 0.0], [v > 1.0] agree with
    the rational ones on every finite float).  A NaN confidence is outside
    this embedding: [validate_confidence] lets it through (both comparisons
    are false), and SQLite stores a NaN as NULL, so that the INSERT of such
    an entry fails the [NOT NULL] of the [confidence] column; the statements
    below are about entries with a numeric confidence. *)

From Stdlib Require Import String List Bool Arith Lia QArith.
From Stdlib Require Import Sorting.Permutation Sorting.Sorted.
Import ListNotations.
Open Scope nat_scope.

Definition UUID := nat.
Definition datetime := nat.

(** ** Enumerations of [models.py] *)

Inductive KnowledgeType := INSIGHT | RECOMMENDATION | CONTRAINDICATION | MEMORY.

Inductive KnowledgeStatus := ACTIVE | DEPRECATED.

Inductive LinkType := SNP | BIOMARKER | INGREDIENT | SUPPLEMENT | PROTOCOL | KNOWLEDGE.

Definition status_eqb (a b : KnowledgeStatus) : bool :=
  match a, b with
  | ACTIVE, ACTIVE | DEPRECATED, DEPRECATED => true
  | _, _ => false
  end.

Definition link_type_eqb (a b : LinkType) : bool :=
  match a, b with
  | SNP, SNP | BIOMARKER, BIOMARKER | INGREDIENT, INGREDIENT
  | SUPPLEMENT, SUPPLEMENT | PROTOCOL, PROTOCOL | KNOWLEDGE, KNOWLEDGE => true
  | _, _ => false
  end.

(** ** Records of [models.py] *)

Module Knowledge.
Record t := mk {
  id : UUID;
  type_ : KnowledgeType;
  status : KnowledgeStatus;
  summary : string;
  content : string;
  confidence : Q;
  supersedes_id : option UUID;
  supersession_reason : option string;
  created_at : datetime
}.

(** [obj.status = v] *)
Definition set_status (k : t) (v : KnowledgeStatus) : t :=
  mk k.(id) k.(type_) v k.(summary) k.(content) k.(confidence)
     k.(supersedes_id) k.(supersession_reason) k.(created_at).

(** [obj.supersedes_id = v] *)
Definition set_supersedes_id (k : t) (v : option UUID) : t :=
  mk k.(id) k.(type_) k.(status) k.(summary) k.(content) k.(confidence)
     v k.(supersession_reason) k.(created_at).
End Knowledge.

Module KnowledgeLink.
Record t := mk {
  id : UUID;
  knowledge_id : UUID;
  link_type : LinkType;
  target_id : UUID
}.
End KnowledgeLink.

Module KnowledgeTag.
Record t := mk {
  id : UUID;
  knowledge_id : UUID;
  tag : string
}.
End KnowledgeTag.

(** [Knowledge.validate_confidence]: the field validator run by pydantic
    when a [Knowledge] is constructed.  It raises for [v < 0.0 or v > 1.0]
    and otherwise returns [v] itself. *)
Definition Qltb (a b : Q) : bool := negb (Qle_bool b a).

Definition validate_confidence (v : Q) : option Q :=
  if Qltb v 0%Q || Qltb 1%Q v then None else Some v.

(** Construction of a [Knowledge] (pydantic [BaseModel.__init__]): the only
    field validator of the model is [validate_confidence]; [summary] and
    [content] are plain [str] fields, [status] defaults to [ACTIVE] and
    [supersedes_id] to [None] when not given. *)
Definition make_knowledge (id : UUID) (ty : KnowledgeType) (st : KnowledgeStatus)
    (summary content : string) (confidence : Q) (supersedes_id : option UUID)
    (reason : option string) (created_at : datetime) : option Knowledge.t :=
  match validate_confidence confidence with
  | None => None
  | Some c => Some (Knowledge.mk id ty st summary content c supersedes_id reason created_at)
  end.

(** ** The row store (schema of [client.py]) *)

(** Rows are kept in rowid order: the order in which SQLite inserted them,
    which is the order a query without [ORDER BY] returns them in (a table
    scan, or a scan of [idx_knowledge_status] whose entries for one status
    are sorted by rowid).  An [UPDATE] keeps the rowid of the row.
    [other_rows] holds the ids of the rows of the non-knowledge tables,
    with their table name. *)
Record Store := mkStore {
  knowledge : list Knowledge.t;
  knowledge_tags : list KnowledgeTag.t;
  knowledge_links : list KnowledgeLink.t;
  other_rows : list (string * UUID)
}.

Definition knowledge_ids (s : Store) : list UUID := map Knowledge.id s.(knowledge).

(** [SELECT ... FROM knowledge WHERE id = ?]; at most one row by the
    primary key. *)
Definition find_knowledge (rows : list Knowledge.t) (kid : UUID) : option Knowledge.t :=
  find (fun k => Nat.eqb k.(Knowledge.id) kid) rows.

(** [SELECT 1 FROM <table> WHERE id = ?] *)
Definition row_exists (s : Store) (table : string) (rid : UUID) : bool :=
  if String.eqb table "knowledge" then existsb (Nat.eqb rid) (knowledge_ids s)
  else existsb (fun '(t, i) => String.eqb t table && Nat.eqb i rid) s.(other_rows).

(** [table_map] of [validate_link_target_exists]: every [LinkType] has an
    entry, so the [table is None] branch is unreachable. *)
Definition table_map (lt : LinkType) : string :=
  match lt with
  | SNP => "snps"
  | BIOMARKER => "biomarkers"
  | INGREDIENT => "ingredients"
  | SUPPLEMENT => "supplement_labels"
  | PROTOCOL => "supplement_protocols"
  | KNOWLEDGE => "knowledge"
  end.

(** The [.value] of a [LinkType], which is what the store keeps and orders. *)
Definition link_type_value (lt : LinkType) : string :=
  match lt with
  | SNP => "snp"
  | BIOMARKER => "biomarker"
  | INGREDIENT => "ingredient"
  | SUPPLEMENT => "supplement"
  | PROTOCOL => "protocol"
  | KNOWLEDGE => "knowledge"
  end.

(** ** Writes and their constraints *)

(** The statements run against the store: the INSERTs and the UPDATE of
    the sqlite repository, and those a session flush would emit for
    [session.add] (an INSERT for a new object, an UPDATE for an object
    loaded by [session.get] and then modified). *)
Inductive Op :=
| InsertKnowledge (k : Knowledge.t)
| UpdateKnowledge (k : Knowledge.t)
| InsertTag (t : KnowledgeTag.t)
| InsertLink (l : KnowledgeLink.t).

(** [UPDATE knowledge SET ... WHERE id = k.id], on one row. *)
Definition update_row (k r : Knowledge.t) : Knowledge.t :=
  if Nat.eqb r.(Knowledge.id) k.(Knowledge.id) then k else r.

(** One statement against the store, with the schema's constraints:
    the [id TEXT PRIMARY KEY] of each table, [FOREIGN KEY (supersedes_id)
    REFERENCES knowledge(id)] and [FOREIGN KEY (knowledge_id) REFERENCES
    knowledge(id)] of the tag and link tables.  [target_id] of a link has no
    foreign key.  SQLite checks an immediate foreign key once the row is in
    the table, so a row whose [supersedes_id] is its own id passes.  [None]
    is an [IntegrityError]. *)
Definition apply_op (d : Store) (o : Op) : option Store :=
  match o with
  | InsertKnowledge k =>
      if existsb (Nat.eqb k.(Knowledge.id)) (knowledge_ids d) then None
      else if match k.(Knowledge.supersedes_id) with
              | None => true
              | Some p => existsb (Nat.eqb p) (knowledge_ids d ++ [k.(Knowledge.id)])
              end
      then Some (mkStore (d.(knowledge) ++ [k]) d.(knowledge_tags)
                         d.(knowledge_links) d.(other_rows))
      else None
  | UpdateKnowledge k =>
      Some (mkStore (map (update_row k) d.(knowledge))
                    d.(knowledge_tags) d.(knowledge_links) d.(other_rows))
  | InsertTag t =>
      if existsb (Nat.eqb t.(KnowledgeTag.id)) (map KnowledgeTag.id d.(knowledge_tags)) then None
      else if existsb (Nat.eqb t.(KnowledgeTag.knowledge_id)) (knowledge_ids d)
      then Some (mkStore d.(knowledge) (d.(knowledge_tags) ++ [t])
                         d.(knowledge_links) d.(other_rows))
      else None
  | InsertLink l =>
      if existsb (Nat.eqb l.(KnowledgeLink.id)) (map KnowledgeLink.id d.(knowledge_links)) then None
      else if existsb (Nat.eqb l.(KnowledgeLink.knowledge_id)) (knowledge_ids d)
      then Some (mkStore d.(knowledge) d.(knowledge_tags)
                         (d.(knowledge_links) ++ [l]) d.(other_rows))
      else None
  end.

(** A transaction: all statements in order, or none of them. *)
Fixpoint apply_ops (d : Store) (os : list Op) : option Store :=
  match os with
  | [] => Some d
  | o :: rest =>
      match apply_op d o with
      | None => None
      | Some d' => apply_ops d' rest
      end
  end.

(** ** The session: a state and error monad *)

(** Errors raised on the paths embedded here:
    - [KnowledgeNotFound i]: the ["Knowledge not found: {old_id}"] exit of
      the scripts' [cmd_supersede], and the [ValueError(f"Knowledge entry
      not found: {old_id}")] of the session repository's [supersede];
    - [LinkTargetDoesNotExist lt i]: the exit of [cmd_create] and of the
      scripts' [cmd_add] with ["Link target does not exist: {link_type}
      {target_id}"];
    - [IntegrityError]: a constraint failure of the store, after which the
      statement (or the transaction) has no effect;
    - [NoInspectionAvailable], [ArgumentError], [AttributeError],
      [UnmappedInstanceError], [TypeError]: the exceptions that SQLAlchemy,
      pydantic and sqlmodel raise when the session repository applies its
      primitives to the pydantic models (see [session_get] below). *)
Inductive Error :=
| KnowledgeNotFound (i : UUID)
| LinkTargetDoesNotExist (lt : LinkType) (i : UUID)
| IntegrityError
| NoInspectionAvailable
| ArgumentError
| AttributeError
| UnmappedInstanceError
| TypeError.

(** [db] is the committed content of the store, [pending] the statements
    of a session transaction not yet committed, [next_uuid] the source of
    the ids that [uuid4] hands out to new tag and link objects. *)
Record Session := mkSession {
  db : Store;
  pending : list Op;
  next_uuid : nat
}.

Definition M (A : Type) : Type := Session -> (Error + A) * Session.

Definition ret {A} (a : A) : M A := fun s => (inr a, s).

Definition bind {A B} (m : M A) (f : A -> M B) : M B :=
  fun s => match m s with
           | (inl e, s') => (inl e, s')
           | (inr a, s') => f a s'
           end.

Notation "x <- m ;; k" := (bind m (fun x => k))
  (at level 61, m at next level, right associativity).
Notation "m ;; k" := (bind m (fun _ => k)) (at level 61, right associativity).

Definition raise {A} (e : Error) : M A := fun s => (inl e, s).

(** A read-only query against the committed store. *)
Definition query {A} (f : Store -> A) : M A := fun s => (inr (f s.(db)), s).

(** [uuid4()], the [default_factory] of every [id] field. *)
Definition uuid4 : M UUID :=
  fun s => (inr s.(next_uuid), mkSession s.(db) s.(pending) (S s.(next_uuid))).

(** [session.commit()]: on a constraint failure the transaction is rolled
    back and the error propagates. *)
Definition commit : M unit :=
  fun s => match apply_ops s.(db) s.(pending) with
           | Some d => (inr tt, mkSession d [] s.(next_uuid))
           | None => (inl IntegrityError, mkSession s.(db) [] s.(next_uuid))
           end.

(** A Python [for] loop whose body may raise. *)
Fixpoint for_each {A} (f : A -> M unit) (l : list A) : M unit :=
  match l with
  | [] => ret tt
  | x :: rest => f x ;; for_each f rest
  end.

(** [with client.get_session() as session: ...]: the command runs on a
    fresh session; leaving the block closes the session, which discards
    what was not committed.  The result is the outcome and the committed
    store. *)
Definition run {A} (m : M A) (d : Store) (seed : nat) : (Error + A) * Store :=
  let (r, s) := m (mkSession d [] seed) in (r, s.(db)).

(** ** Ordering helpers for [ORDER BY] *)

(** Stable insertion sort; [le a b] says [a] may come before [b].  SQL
    leaves the order of ties open; this is one of the allowed orders. *)
Fixpoint insert_by {A} (le : A -> A -> bool) (x : A) (l : list A) : list A :=
  match l with
  | [] => [x]
  | y :: rest => if le x y then x :: y :: rest else y :: insert_by le x rest
  end.

Fixpoint sort_by {A} (le : A -> A -> bool) (l : list A) : list A :=
  match l with
  | [] => []
  | x :: rest => insert_by le x (sort_by le rest)
  end.

(** ** [datatypes/knowledge/repository.py] *)

(** [Knowledge], [KnowledgeTag] and [KnowledgeLink] are pydantic
    [BaseModel]s, not SQLModel tables (no [table=True]): SQLAlchemy has no
    mapping for them, and pydantic keeps their fields off the class.  Each
    primitive the session repository applies to them raises before the
    store is reached:
    - [session.get(Knowledge, i)] raises [NoInspectionAvailable];
    - [select(Knowledge)], [select(KnowledgeTag)], [select(KnowledgeLink)]
      raise [ArgumentError];
    - [KnowledgeTag.knowledge_id] and [KnowledgeLink.knowledge_id], read on
      the class, raise [AttributeError];
    - [session.add(obj)] raises [UnmappedInstanceError];
    - [session.exec(statement, params)] raises [TypeError]: sqlmodel's
      [Session.exec] takes [params] as a keyword argument only. *)
Definition session_get (kid : UUID) : M (option Knowledge.t) := raise NoInspectionAvailable.

Definition select_model {A} : M A := raise ArgumentError.

Definition class_field {A} : M A := raise AttributeError.

Definition session_add (o : Op) : M unit := raise UnmappedInstanceError.

Definition session_exec_positional {A} : M A := raise TypeError.

(** [get_knowledge]: [session.get(Knowledge, knowledge_id)] *)
Definition get_knowledge (kid : UUID) : M (option Knowledge.t) := session_get kid.

(** [get_tags_for_knowledge], [get_links_for_knowledge]: the statement
    starts with [select(KnowledgeTag)] (resp. [select(KnowledgeLink)]). *)
Definition get_tags_for_knowledge (kid : UUID) : M (list KnowledgeTag.t) := select_model.

Definition get_links_for_knowledge (kid : UUID) : M (list KnowledgeLink.t) := select_model.

(** [list_active]: [select(Knowledge).where(Knowledge.status == ACTIVE)]. *)
Definition list_active : M (list Knowledge.t) := select_model.

(** [get_by_tag]: [select(KnowledgeTag.knowledge_id)] reads the field off
    the class before anything else runs; the loop of [session.get] calls
    that follows is not reached. *)
Definition get_by_tag (v : string) : M (list Knowledge.t) := class_field.

(** [get_linked_to]: [select(KnowledgeLink.knowledge_id)], likewise. *)
Definition get_linked_to (lt : LinkType) (tid : UUID) : M (list Knowledge.t) := class_field.

(** [validate_link_target_exists]: [table_map] has an entry for every
    [LinkType], then [self.session.exec(text(...), {"id": str(target_id)})]
    passes the parameters positionally. *)
Definition validate_link_target_exists (lt : LinkType) (tid : UUID) : M bool :=
  session_exec_positional.

(** [save_knowledge]: add the entry, its tags, its links; one commit. *)
Definition save_knowledge (k : Knowledge.t) (tags : list KnowledgeTag.t)
    (links : list KnowledgeLink.t) : M unit :=
  session_add (InsertKnowledge k) ;;
  for_each (fun t => session_add (InsertTag t)) tags ;;
  for_each (fun l => session_add (InsertLink l)) links ;;
  commit.

(** The loop bodies of [supersede]: a new [KnowledgeTag] (resp.
    [KnowledgeLink]) object is built for the new entry, with a fresh [id]
    from [uuid4] and only the [tag] (resp. [link_type], [target_id]) of the
    object passed in. *)
Definition copy_tag (kid : UUID) (t : KnowledgeTag.t) : M unit :=
  i <- uuid4 ;; session_add (InsertTag (KnowledgeTag.mk i kid t.(KnowledgeTag.tag))).

Definition copy_link (kid : UUID) (l : KnowledgeLink.t) : M unit :=
  i <- uuid4 ;;
  session_add (InsertLink (KnowledgeLink.mk i kid l.(KnowledgeLink.link_type)
                                           l.(KnowledgeLink.target_id))).

(** [supersede] *)
Definition supersede (old_id : UUID) (new_knowledge : Knowledge.t)
    (tags : list KnowledgeTag.t) (links : list KnowledgeLink.t) : M unit :=
  old <- session_get old_id ;;
  match old with
  | None => raise (KnowledgeNotFound old_id)
  | Some old_knowledge =>
      let new_k := Knowledge.set_supersedes_id new_knowledge (Some old_id) in
      let old_k := Knowledge.set_status old_knowledge DEPRECATED in
      session_add (InsertKnowledge new_k) ;;
      session_add (UpdateKnowledge old_k) ;;
      for_each (copy_tag new_k.(Knowledge.id)) tags ;;
      for_each (copy_link new_k.(Knowledge.id)) links ;;
      commit
  end.

(** ** [cli/databases/knowledge.py] *)

(** The link check of [cmd_create]: a missing target ends the command
    with ["Link target does not exist: {link_type} {target_id}"]. *)
Definition check_link (l : KnowledgeLink.t) : M unit :=
  ok <- validate_link_target_exists l.(KnowledgeLink.link_type) l.(KnowledgeLink.target_id) ;;
  if ok then ret tt
  else raise (LinkTargetDoesNotExist l.(KnowledgeLink.link_type) l.(KnowledgeLink.target_id)).

(** [cmd_create], after [parse_knowledge_json] has built the entry, its
    tags and its links: every link target is probed in order, the first
    missing one ends the command, and then [save_knowledge] runs.  Only the
    [ValueError] of the parse is caught; the exceptions above end the
    command. *)
Definition cmd_create (k : Knowledge.t) (tags : list KnowledgeTag.t)
    (links : list KnowledgeLink.t) : M unit :=
  for_each check_link links ;;
  save_knowledge k tags links.

(** ** [repositories/knowledge.py] (the sibling sqlite repository) *)

(** The active rows in rowid order. *)
Definition active_rows (d : Store) : list Knowledge.t :=
  filter (fun k => status_eqb k.(Knowledge.status) ACTIVE) d.(knowledge).

(** [get_tags_by_knowledge]: [WHERE knowledge_id = ? ORDER BY tag] *)
Definition tags_for_knowledge (d : Store) (kid : UUID) : list KnowledgeTag.t :=
  sort_by (fun a b => String.leb a.(KnowledgeTag.tag) b.(KnowledgeTag.tag))
          (filter (fun t => Nat.eqb t.(KnowledgeTag.knowledge_id) kid) d.(knowledge_tags)).

(** [get_links_by_knowledge]: [WHERE knowledge_id = ? ORDER BY link_type] *)
Definition links_for_knowledge (d : Store) (kid : UUID) : list KnowledgeLink.t :=
  sort_by (fun a b => String.leb (link_type_value a.(KnowledgeLink.link_type))
                                 (link_type_value b.(KnowledgeLink.link_type)))
          (filter (fun l => Nat.eqb l.(KnowledgeLink.knowledge_id) kid) d.(knowledge_links)).

(** [get_active]: [WHERE status = 'active' ORDER BY created_at DESC] *)
Definition get_active_rows (d : Store) : list Knowledge.t :=
  sort_by (fun a b => Nat.leb b.(Knowledge.created_at) a.(Knowledge.created_at))
          (filter (fun k => status_eqb k.(Knowledge.status) ACTIVE) d.(knowledge)).

(** ** Notions used by the statements *)

(** The first link of [links] whose target is missing from the table
    [table_map] designates for it. *)
Definition first_missing_target (d : Store) (links : list KnowledgeLink.t)
    : option KnowledgeLink.t :=
  find (fun l => negb (row_exists d (table_map l.(KnowledgeLink.link_type))
                                    l.(KnowledgeLink.target_id))) links.

(** The tag rows [supersede] writes for the entry [kid]: ids [n], [n+1],
    ... from [uuid4], and the given tag values. *)
Fixpoint fresh_tags (n : nat) (kid : UUID) (values : list string) : list KnowledgeTag.t :=
  match values with
  | [] => []
  | v :: rest => KnowledgeTag.mk n kid v :: fresh_tags (S n) kid rest
  end.

(** The link rows [supersede] writes for the entry [kid]. *)
Fixpoint fresh_links (n : nat) (kid : UUID) (targets : list (LinkType * UUID))
    : list KnowledgeLink.t :=
  match targets with
  | [] => []
  | (lt, tid) :: rest => KnowledgeLink.mk n kid lt tid :: fresh_links (S n) kid rest
  end.

Definition tag_value (t : KnowledgeTag.t) : string := t.(KnowledgeTag.tag).

Definition link_target (l : KnowledgeLink.t) : LinkType * UUID :=
  (l.(KnowledgeLink.link_type), l.(KnowledgeLink.target_id)).

(** The foreign keys of the tag and link tables hold in [d]. *)
Definition foreign_keys_hold (d : Store) : Prop :=
  Forall (fun t => In t.(KnowledgeTag.knowledge_id) (knowledge_ids d)) d.(knowledge_tags) /\
  Forall (fun l => In l.(KnowledgeLink.knowledge_id) (knowledge_ids d)) d.(knowledge_links).

(** The primary key of the knowledge table holds in [d]. *)
Definition primary_key_holds (d : Store) : Prop := NoDup (knowledge_ids d).

(** ** JSON input of the CLIs: [parse_knowledge_json] *)

(** [parse_knowledge_json] is the same function in [cli/databases/knowledge.py]
    and [scripts/knowledge.py].  Its argument is what [json.load] returns:
    [None], a [bool], an [int] or [float], a [str], a [list] or a [dict].  A
    [dict] is kept as its members in text order, repeated keys included.
    A [str] is kept as the UTF-8 encoding of its text (a lone surrogate
    as its own three bytes); the non-standard literals [NaN] and
    [Infinity] are left out. *)
#[warnings="-register-all"]
Inductive json :=
| JNull
| JBool (b : bool)
| JNum (q : Q)
| JStr (s : string)
| JArr (l : list json)
| JObj (kvs : list (string * json)).

(** The exceptions of [parse_knowledge_json].  The first three are
    [ValueError]s (pydantic's [ValidationError] is one), which the CLI
    commands catch and report as ["Invalid knowledge data: ..."]; [Uncaught]
    is any other exception ([TypeError], [AttributeError], [KeyError]),
    which ends the command with a traceback. *)
Inductive PyErr :=
| MissingField (field : string)
| LinkMissingFields
| InvalidValue
| Uncaught.

(** [d[k]] on a [dict]: a repeated key holds its last value. *)
Definition obj_get (kvs : list (string * json)) (k : string) : option json :=
  option_map snd (find (fun kv => String.eqb (fst kv) k) (rev kvs)).

(** The keys of a [dict] in iteration order: in the order of their first
    occurrence, once each. *)
Fixpoint dict_keys_from (seen : list string) (kvs : list (string * json)) : list string :=
  match kvs with
  | [] => []
  | (k, _) :: rest =>
      if existsb (String.eqb k) seen then dict_keys_from seen rest
      else k :: dict_keys_from (k :: seen) rest
  end.

(** [s == v] for a [str] [s]. *)
Definition str_eq_json (s : string) (v : json) : bool :=
  match v with JStr s' => String.eqb s s' | _ => false end.

(** [s in v] for a [str] [s]: a key test on a [dict], an element test on a
    [list], a substring test on a [str]; [None] is the [TypeError] raised
    for [None], a [bool] or a number. *)
Definition py_in (s : string) (v : json) : option bool :=
  match v with
  | JObj kvs => Some (existsb (fun kv => String.eqb (fst kv) s) kvs)
  | JArr l => Some (existsb (str_eq_json s) l)
  | JStr t => Some (match String.index 0 s t with Some _ => true | None => false end)
  | _ => None
  end.

(** [v[s]] for a [str] key [s]; [None] is the exception: [KeyError] on a
    [dict] without [s], [TypeError] on any other value. *)
Definition py_getitem (v : json) (s : string) : option json :=
  match v with JObj kvs => obj_get kvs s | _ => None end.

(** [v.get(s, default)]; [None] is the [AttributeError] of a non-[dict]. *)
Definition py_get (v : json) (s : string) (default : json) : option json :=
  match v with
  | JObj kvs => Some (match obj_get kvs s with Some x => x | None => default end)
  | _ => None
  end.

(** A continuation byte of UTF-8: [0x80] to [0xBF]. *)
Definition is_continuation (c : Ascii.ascii) : bool :=
  (128 <=? Ascii.nat_of_ascii c) && (Ascii.nat_of_ascii c <? 192).

(** The code points of a UTF-8 text, each as its bytes: a leading byte
    with the continuation bytes that follow it. *)
Fixpoint code_points (cs : list Ascii.ascii) : list (list Ascii.ascii) :=
  match cs with
  | [] => []
  | c :: rest =>
      match code_points rest with
      | (c' :: cp) :: cps =>
          if is_continuation c' then (c :: c' :: cp) :: cps else [c] :: (c' :: cp) :: cps
      | cps => [c] :: cps
      end
  end.

(** [for x in v]: a [list] gives its elements, a [str] its characters
    (code points), a [dict] its keys; [None] is the [TypeError] of the other
    values. *)
Definition py_iter (v : json) : option (list json) :=
  match v with
  | JArr l => Some l
  | JStr s => Some (map (fun cp => JStr (string_of_list_ascii cp))
                        (code_points (list_ascii_of_string s)))
  | JObj kvs => Some (map JStr (dict_keys_from [] kvs))
  | _ => None
  end.

(** The truth value of a Python object. *)
Definition truthy (v : json) : bool :=
  match v with
  | JNull => false
  | JBool b => b
  | JNum q => negb (Qeq_bool q 0)
  | JStr s => negb (String.eqb s "")
  | JArr l => negb (Nat.eqb (length l) 0)
  | JObj kvs => negb (Nat.eqb (length kvs) 0)
  end.

(** The [.value] of the members of [KnowledgeType] and [KnowledgeStatus]. *)
Definition knowledge_type_value (t : KnowledgeType) : string :=
  match t with
  | INSIGHT => "insight"
  | RECOMMENDATION => "recommendation"
  | CONTRAINDICATION => "contraindication"
  | MEMORY => "memory"
  end.

Definition status_value (s : KnowledgeStatus) : string :=
  match s with ACTIVE => "active" | DEPRECATED => "deprecated" end.

(** [KnowledgeType(v)] and [LinkType(v)]: the member whose value equals
    [v]; [None] is the [ValueError] of any other value. *)
Definition KnowledgeType_of (v : json) : option KnowledgeType :=
  find (fun t => str_eq_json (knowledge_type_value t) v)
       [INSIGHT; RECOMMENDATION; CONTRAINDICATION; MEMORY].

Definition LinkType_of (v : json) : option LinkType :=
  find (fun t => str_eq_json (link_type_value t) v)
       [SNP; BIOMARKER; INGREDIENT; SUPPLEMENT; PROTOCOL; KNOWLEDGE].

(** The conversions of the standard library and of pydantic that the CLIs
    rely on, left abstract: [uuid_of_string s] is [UUID(s)] for a [str]
    ([None]: its [ValueError]); [str_of_uuid] is [str] of a [UUID];
    [float_of_json] is pydantic's coercion of a value to a [float] field
    ([None]: a validation error); [isoformat] is [datetime.isoformat]. *)
Class PyLib := {
  uuid_of_string : string -> option UUID;
  str_of_uuid : UUID -> string;
  float_of_json : json -> option Q;
  isoformat : datetime -> string
}.

(** Python code that may raise and that draws ids from [uuid4]: the state
    is the next id [uuid4] hands out. *)
Definition Py (A : Type) : Type := nat -> (PyErr + A) * nat.

Definition py_ret {A} (a : A) : Py A := fun n => (inr a, n).

Definition py_bind {A B} (m : Py A) (f : A -> Py B) : Py B :=
  fun n => match m n with
           | (inl e, n') => (inl e, n')
           | (inr a, n') => f a n'
           end.

Notation "x <-- m ;; k" := (py_bind m (fun x => k))
  (at level 61, m at next level, right associativity).

Definition py_raise {A} (e : PyErr) : Py A := fun n => (inl e, n).

(** [uuid4()] *)
Definition py_uuid4 : Py UUID := fun n => (inr n, S n).

(** A partial operation: [None] raises [e]. *)
Definition py_lift {A} (e : PyErr) (o : option A) : Py A :=
  match o with Some a => py_ret a | None => py_raise e end.

(** [out = []; for x in l: out.append(f(x))] *)
Fixpoint py_map {A B} (f : A -> Py B) (l : list A) : Py (list B) :=
  match l with
  | [] => py_ret []
  | x :: rest => y <-- f x ;; ys <-- py_map f rest ;; py_ret (y :: ys)
  end.

(** [for field in required: if field not in data: raise ValueError(...)] *)
Fixpoint require_fields (data : json) (fields : list string) : Py unit :=
  match fields with
  | [] => py_ret tt
  | f :: rest =>
      present <-- py_lift Uncaught (py_in f data) ;;
      if present then require_fields data rest else py_raise (MissingField f)
  end.

Definition required_fields : list string := ["type"; "summary"; "content"; "confidence"]%string.

(** pydantic's checks of a [str] and of an [Optional[str]] field. *)
Definition str_field (v : json) : option string :=
  match v with JStr s => Some s | _ => None end.

Definition opt_str_field (v : json) : option (option string) :=
  match v with JNull => Some None | JStr s => Some (Some s) | _ => None end.

(** [UUID(v)]: a [str] is parsed; any other value makes [UUID.__init__]
    fail with an [AttributeError] or a [TypeError]. *)
Definition UUID_of `{PyLib} (v : json) : Py UUID :=
  match v with
  | JStr s => py_lift InvalidValue (uuid_of_string s)
  | _ => py_raise Uncaught
  end.

(** [Knowledge(type=..., summary=..., content=..., confidence=...,
    supersedes_id=..., supersession_reason=...)]: the [id] comes from
    [uuid4], [status] is [ACTIVE], [created_at] is [datetime.now()];
    pydantic checks the type of each given value and runs
    [validate_confidence] (as [make_knowledge] does). *)
Definition new_knowledge `{PyLib} (now : datetime) (ty : KnowledgeType)
    (summary content confidence : json) (sup : option UUID) (reason : json)
    : Py Knowledge.t :=
  kid <-- py_uuid4 ;;
  match str_field summary, str_field content, float_of_json confidence,
        opt_str_field reason with
  | Some s, Some c, Some q, Some r =>
      py_lift InvalidValue (make_knowledge kid ty ACTIVE s c q sup r now)
  | _, _, _, _ => py_raise InvalidValue
  end.

(** [KnowledgeTag(knowledge_id=kid, tag=v)] *)
Definition parse_tag (kid : UUID) (v : json) : Py KnowledgeTag.t :=
  i <-- py_uuid4 ;;
  s <-- py_lift InvalidValue (str_field v) ;;
  py_ret (KnowledgeTag.mk i kid s).

(** One turn of the links loop: the field check, then
    [KnowledgeLink(knowledge_id=kid, link_type=LinkType(v["link_type"]),
    target_id=UUID(v["target_id"]))]. *)
Definition parse_link `{PyLib} (kid : UUID) (v : json) : Py KnowledgeLink.t :=
  has_type <-- py_lift Uncaught (py_in "link_type" v) ;;
  if negb has_type then py_raise LinkMissingFields else
  has_target <-- py_lift Uncaught (py_in "target_id" v) ;;
  if negb has_target then py_raise LinkMissingFields else
  lv <-- py_lift Uncaught (py_getitem v "link_type") ;;
  lt <-- py_lift InvalidValue (LinkType_of lv) ;;
  tv <-- py_lift Uncaught (py_getitem v "target_id") ;;
  tid <-- UUID_of tv ;;
  i <-- py_uuid4 ;;
  py_ret (KnowledgeLink.mk i kid lt tid).

(** [UUID(data["supersedes_id"]) if data.get("supersedes_id") else None] *)
Definition parse_supersedes `{PyLib} (data : json) : Py (option UUID) :=
  sv <-- py_lift Uncaught (py_get data "supersedes_id" JNull) ;;
  if truthy sv then (u <-- UUID_of sv ;; py_ret (Some u)) else py_ret None.

(** [parse_knowledge_json]; [now] is the time [datetime.now()] gives. *)
Definition parse_knowledge_json `{PyLib} (now : datetime) (data : json)
    : Py (Knowledge.t * list KnowledgeTag.t * list KnowledgeLink.t) :=
  _ <-- require_fields data required_fields ;;
  tv <-- py_lift Uncaught (py_getitem data "type") ;;
  ty <-- py_lift InvalidValue (KnowledgeType_of tv) ;;
  summary <-- py_lift Uncaught (py_getitem data "summary") ;;
  content <-- py_lift Uncaught (py_getitem data "content") ;;
  confidence <-- py_lift Uncaught (py_getitem data "confidence") ;;
  sup <-- parse_supersedes data ;;
  reason <-- py_lift Uncaught (py_get data "supersession_reason" JNull) ;;
  k <-- new_knowledge now ty summary content confidence sup reason ;;
  tvs <-- py_lift Uncaught (py_get data "tags" (JArr [])) ;;
  tag_values <-- py_lift Uncaught (py_iter tvs) ;;
  tags <-- py_map (parse_tag k.(Knowledge.id)) tag_values ;;
  lvs <-- py_lift Uncaught (py_get data "links" (JArr [])) ;;
  link_values <-- py_lift Uncaught (py_iter lvs) ;;
  links <-- py_map (parse_link k.(Knowledge.id)) link_values ;;
  py_ret (k, tags, links).

(** ** JSON output of the CLIs *)

(** [knowledge_to_dict]: [str(knowledge.supersedes_id) if
    knowledge.supersedes_id else None], where a [UUID] is always true. *)
Definition knowledge_to_dict `{PyLib} (k : Knowledge.t) : list (string * json) :=
  [("id", JStr (str_of_uuid k.(Knowledge.id)));
   ("type", JStr (knowledge_type_value k.(Knowledge.type_)));
   ("status", JStr (status_value k.(Knowledge.status)));
   ("summary", JStr k.(Knowledge.summary));
   ("content", JStr k.(Knowledge.content));
   ("confidence", JNum k.(Knowledge.confidence));
   ("supersedes_id", match k.(Knowledge.supersedes_id) with
                     | Some u => JStr (str_of_uuid u)
                     | None => JNull
                     end);
   ("supersession_reason", match k.(Knowledge.supersession_reason) with
                           | Some r => JStr r
                           | None => JNull
                           end);
   ("created_at", JStr (isoformat k.(Knowledge.created_at)))]%string.

Definition tag_to_dict `{PyLib} (t : KnowledgeTag.t) : json :=
  JObj [("id", JStr (str_of_uuid t.(KnowledgeTag.id)));
        ("knowledge_id", JStr (str_of_uuid t.(KnowledgeTag.knowledge_id)));
        ("tag", JStr t.(KnowledgeTag.tag))]%string.

Definition link_to_dict `{PyLib} (l : KnowledgeLink.t) : json :=
  JObj [("id", JStr (str_of_uuid l.(KnowledgeLink.id)));
        ("knowledge_id", JStr (str_of_uuid l.(KnowledgeLink.knowledge_id)));
        ("link_type", JStr (link_type_value l.(KnowledgeLink.link_type)));
        ("target_id", JStr (str_of_uuid l.(KnowledgeLink.target_id)))]%string.

(** The object [--json] prints for an entry in [cmd_create], [cmd_get] and
    [cmd_add]: [result = knowledge_to_dict(knowledge)], then
    [result["tags"]] and [result["links"]]. *)
Definition entry_json `{PyLib} (k : Knowledge.t) (tags : list KnowledgeTag.t)
    (links : list KnowledgeLink.t) : json :=
  JObj (knowledge_to_dict k ++ [("tags", JArr (map tag_to_dict tags));
                                ("links", JArr (map link_to_dict links))]%string).

(** ** [repositories/knowledge.py]: the sqlite repository *)

Module SqliteRepo.

(** [cursor.execute(...)] followed by [conn.commit()]: a statement that
    breaks a constraint raises [IntegrityError] and has no effect. *)
Definition execute (o : Op) : M unit :=
  fun s => match apply_op s.(db) o with
           | Some d => (inr tt, mkSession d s.(pending) s.(next_uuid))
           | None => (inl IntegrityError, s)
           end.

(** [insert_knowledge], [insert_link], [insert_tag] *)
Definition insert_knowledge (k : Knowledge.t) : M Knowledge.t :=
  execute (InsertKnowledge k) ;; ret k.

Definition insert_link (l : KnowledgeLink.t) : M KnowledgeLink.t :=
  execute (InsertLink l) ;; ret l.

Definition insert_tag (t : KnowledgeTag.t) : M KnowledgeTag.t :=
  execute (InsertTag t) ;; ret t.

(** [get_by_id]: [SELECT ... FROM knowledge WHERE id = ?] *)
Definition get_by_id (kid : UUID) : M (option Knowledge.t) :=
  query (fun d => find_knowledge d.(knowledge) kid).

(** [get_active] *)
Definition get_active : M (list Knowledge.t) := query get_active_rows.

(** [get_tags_by_knowledge], [get_links_by_knowledge] *)
Definition get_tags_by_knowledge (kid : UUID) : M (list KnowledgeTag.t) :=
  query (fun d => tags_for_knowledge d kid).

Definition get_links_by_knowledge (kid : UUID) : M (list KnowledgeLink.t) :=
  query (fun d => links_for_knowledge d kid).

(** [UPDATE knowledge SET status = 'deprecated' WHERE id = ?] *)
Definition deprecate_rows (old_id : UUID) (rows : list Knowledge.t) : list Knowledge.t :=
  map (fun r => if Nat.eqb r.(Knowledge.id) old_id then Knowledge.set_status r DEPRECATED else r)
      rows.

Definition update_status (old_id : UUID) : M unit :=
  fun s => (inr tt, mkSession (mkStore (deprecate_rows old_id s.(db).(knowledge))
                                       s.(db).(knowledge_tags) s.(db).(knowledge_links)
                                       s.(db).(other_rows))
                              s.(pending) s.(next_uuid)).

(** [supersede]: the INSERT of the new entry, with [supersedes_id] set to
    [str(old_id)], then the UPDATE of the old one, then one commit; if the
    INSERT raises, the UPDATE is not run and nothing is committed.  The
    [Knowledge] returned has the fields of the inserted row. *)
Definition supersede (old_id : UUID) (new_knowledge : Knowledge.t) : M Knowledge.t :=
  let nk := Knowledge.set_supersedes_id new_knowledge (Some old_id) in
  execute (InsertKnowledge nk) ;;
  update_status old_id ;;
  ret nk.

(** DISTINCT compares whole rows; [confidence] is a REAL and compares by
    value. *)
Definition option_eqb {A} (eqb : A -> A -> bool) (a b : option A) : bool :=
  match a, b with
  | Some x, Some y => eqb x y
  | None, None => true
  | _, _ => false
  end.

Definition knowledge_type_eqb (a b : KnowledgeType) : bool :=
  String.eqb (knowledge_type_value a) (knowledge_type_value b).

Definition knowledge_eqb (a b : Knowledge.t) : bool :=
  Nat.eqb a.(Knowledge.id) b.(Knowledge.id)
  && knowledge_type_eqb a.(Knowledge.type_) b.(Knowledge.type_)
  && status_eqb a.(Knowledge.status) b.(Knowledge.status)
  && String.eqb a.(Knowledge.summary) b.(Knowledge.summary)
  && String.eqb a.(Knowledge.content) b.(Knowledge.content)
  && Qeq_bool a.(Knowledge.confidence) b.(Knowledge.confidence)
  && option_eqb Nat.eqb a.(Knowledge.supersedes_id) b.(Knowledge.supersedes_id)
  && option_eqb String.eqb a.(Knowledge.supersession_reason) b.(Knowledge.supersession_reason)
  && Nat.eqb a.(Knowledge.created_at) b.(Knowledge.created_at).

(** [SELECT DISTINCT]: the first row of each group of equal rows. *)
Fixpoint distinct_from {A} (eqb : A -> A -> bool) (seen : list A) (l : list A) : list A :=
  match l with
  | [] => []
  | x :: rest =>
      if existsb (eqb x) seen then distinct_from eqb seen rest
      else x :: distinct_from eqb (x :: seen) rest
  end.

(** [ORDER BY k.created_at DESC] *)
Definition by_created_desc (a b : Knowledge.t) : bool :=
  Nat.leb b.(Knowledge.created_at) a.(Knowledge.created_at).

(** [get_by_tag]: [SELECT DISTINCT k.* FROM knowledge k JOIN knowledge_tags
    kt ON k.id = kt.knowledge_id WHERE kt.tag = ? ORDER BY k.created_at
    DESC]; the join gives one row per matching pair. *)
Definition by_tag_rows (d : Store) (v : string) : list Knowledge.t :=
  sort_by by_created_desc
    (distinct_from knowledge_eqb []
       (flat_map (fun k => map (fun _ => k)
                    (filter (fun t => Nat.eqb k.(Knowledge.id) t.(KnowledgeTag.knowledge_id)
                                      && String.eqb t.(KnowledgeTag.tag) v)
                            d.(knowledge_tags)))
                 d.(knowledge))).

Definition get_by_tag (v : string) : M (list Knowledge.t) := query (fun d => by_tag_rows d v).

(** [get_by_link]: the same join with [knowledge_links], [WHERE
    kl.link_type = ? AND kl.target_id = ?]. *)
Definition by_link_rows (d : Store) (lt : LinkType) (tid : UUID) : list Knowledge.t :=
  sort_by by_created_desc
    (distinct_from knowledge_eqb []
       (flat_map (fun k => map (fun _ => k)
                    (filter (fun l => Nat.eqb k.(Knowledge.id) l.(KnowledgeLink.knowledge_id)
                                      && link_type_eqb l.(KnowledgeLink.link_type) lt
                                      && Nat.eqb l.(KnowledgeLink.target_id) tid)
                            d.(knowledge_links)))
                 d.(knowledge))).

Definition get_by_link (lt : LinkType) (tid : UUID) : M (list Knowledge.t) :=
  query (fun d => by_link_rows d lt tid).

End SqliteRepo.

(** ** [scripts/knowledge.py]: the commands over the sqlite repository *)

Module Scripts.

(** [out = []; for x in l: out.append(f(x))] in the session monad. *)
Fixpoint map_m {A B} (f : A -> M B) (l : list A) : M (list B) :=
  match l with
  | [] => ret []
  | x :: rest => y <- f x ;; ys <- map_m f rest ;; ret (y :: ys)
  end.

(** [validate_link_target_exists] of the scripts: [SELECT 1 FROM <table>
    WHERE id = ?] on the repository's connection, with the [table_map] of
    the session repository. *)
Definition validate_link_target_exists (lt : LinkType) (tid : UUID) : M bool :=
  query (fun d => row_exists d (table_map lt) tid).

(** The link check of [cmd_add] and [cmd_supersede]: a missing target ends
    the command with ["Link target does not exist: {link_type.value}
    {target_id}"]. *)
Definition check_link (l : KnowledgeLink.t) : M unit :=
  ok <- validate_link_target_exists l.(KnowledgeLink.link_type) l.(KnowledgeLink.target_id) ;;
  if ok then ret tt
  else raise (LinkTargetDoesNotExist l.(KnowledgeLink.link_type) l.(KnowledgeLink.target_id)).

(** [cmd_add], after [parse_knowledge_json]: the link probes, then
    [insert_knowledge] and one [insert_tag] or [insert_link] per row, each
    committed on its own. *)
Definition cmd_add (k : Knowledge.t) (tags : list KnowledgeTag.t)
    (links : list KnowledgeLink.t) : M unit :=
  for_each check_link links ;;
  SqliteRepo.insert_knowledge k ;;
  for_each (fun t => SqliteRepo.insert_tag t ;; ret tt) tags ;;
  for_each (fun l => SqliteRepo.insert_link l ;; ret tt) links.

(** [cmd_supersede], after [parse_knowledge_json], with [--json]: the
    existence check of [old_id] ("Knowledge not found"), the link probes,
    [repo.supersede], then one new tag and link row per given one for the
    new entry.  The result is what the JSON output lists: the new entry,
    the tag objects built for [result["tags"]] (new [KnowledgeTag]s, each
    with its own [uuid4] id), and [new_links]. *)
Definition cmd_supersede (old_id : UUID) (k : Knowledge.t) (tags : list KnowledgeTag.t)
    (links : list KnowledgeLink.t)
    : M (Knowledge.t * list KnowledgeTag.t * list KnowledgeLink.t) :=
  old <- SqliteRepo.get_by_id old_id ;;
  match old with
  | None => raise (KnowledgeNotFound old_id)
  | Some _ =>
      for_each check_link links ;;
      nk <- SqliteRepo.supersede old_id k ;;
      for_each (fun t => i <- uuid4 ;;
                         SqliteRepo.insert_tag
                           (KnowledgeTag.mk i nk.(Knowledge.id) t.(KnowledgeTag.tag)) ;;
                         ret tt) tags ;;
      new_links <- map_m (fun l => i <- uuid4 ;;
                                   SqliteRepo.insert_link
                                     (KnowledgeLink.mk i nk.(Knowledge.id)
                                        l.(KnowledgeLink.link_type) l.(KnowledgeLink.target_id)))
                         links ;;
      printed_tags <- map_m (fun t => i <- uuid4 ;;
                                      ret (KnowledgeTag.mk i nk.(Knowledge.id) t.(KnowledgeTag.tag)))
                            tags ;;
      ret (nk, printed_tags, new_links)
  end.

End Scripts.

(** ** Further notions used by the statements *)

(** The [supersedes_id] of [k] names an entry of [ids], or is empty. *)
Definition supersedes_ok (ids : list UUID) (k : Knowledge.t) : Prop :=
  match k.(Knowledge.supersedes_id) with None => True | Some p => In p ids end.

(** Every constraint of the schema holds in [d]: the primary keys of the
    three tables, the [knowledge_id] foreign keys of tags and links, and the
    [supersedes_id] foreign key. *)
Definition store_wf (d : Store) : Prop :=
  primary_key_holds d
  /\ NoDup (map KnowledgeTag.id d.(knowledge_tags))
  /\ NoDup (map KnowledgeLink.id d.(knowledge_links))
  /\ foreign_keys_hold d
  /\ Forall (supersedes_ok (knowledge_ids d)) d.(knowledge).

(** A key of a [dict]. *)
Definition has_key (kvs : list (string * json)) (k : string) : bool :=
  existsb (fun kv => String.eqb (fst kv) k) kvs.

(** ** Concrete inputs *)

(** An entry as [parse_knowledge_json] builds it, with the given id,
    status and creation time. *)
Definition sample_fact (i : UUID) (st : KnowledgeStatus) (t : datetime) : Knowledge.t :=
  Knowledge.mk i INSIGHT st "MTHFR C677T detected" "..." (17 # 20) None None t.

Definition empty_store : Store := mkStore [] [] [] [].

(** The committed store after one command run on [d]. *)
Definition after {A} (m : M A) (d : Store) : Store := snd (run m d 0).

(** Spec scenario, through the scripts over the sqlite repository: add A
    (t=1), B (t=2), C (t=3), then supersede B with B2 (t=4). *)
Definition store_ABC : Store :=
  after (Scripts.cmd_add (sample_fact 3 ACTIVE 3) [] [])
    (after (Scripts.cmd_add (sample_fact 2 ACTIVE 2) [] [])
       (after (Scripts.cmd_add (sample_fact 1 ACTIVE 1) [] []) empty_store)).

Definition store_ABC_B2 : Store :=
  after (Scripts.cmd_supersede 2 (sample_fact 4 ACTIVE 4) [] []) store_ABC.

(** A store with one SNP row (id 50) and one biomarker row (id 60), and
    entry 1 carrying the tag ["mthfr"] twice and a link of kind [SNP] to
    row 50. *)
Definition store_tagged : Store :=
  mkStore [sample_fact 1 ACTIVE 1; sample_fact 2 DEPRECATED 2]
          [KnowledgeTag.mk 10 1 "mthfr"; KnowledgeTag.mk 11 1 "mthfr"; KnowledgeTag.mk 12 2 "mthfr"]
          [KnowledgeLink.mk 20 1 SNP 50]
          [("snps"%string, 50); ("biomarkers"%string, 60)].

(** A tag and a link object that belong to another entry (99) and carry
    their own ids. *)
Definition tag_of_99 : KnowledgeTag.t := KnowledgeTag.mk 77 99 "folate".
Definition link_of_99 : KnowledgeLink.t := KnowledgeLink.mk 78 99 SNP 50.


(** A new entry 5 with a tag and a link of its own, and a tag owned by
    entry 1. *)
Definition new_fact : Knowledge.t := sample_fact 5 ACTIVE 5.
Definition new_tags : list KnowledgeTag.t :=
  [KnowledgeTag.mk 30 5 "b12"; KnowledgeTag.mk 32 1 "other"].
Definition new_links : list KnowledgeLink.t := [KnowledgeLink.mk 31 5 BIOMARKER 60].

(** An entry whose [supersedes_id] names no row. *)
Definition dangling_fact : Knowledge.t :=
  Knowledge.mk 5 INSIGHT ACTIVE "s" "c" (1 # 2) (Some 9) None 5.

(** A tag whose id is taken in [store_tagged]. *)
Definition clashing_tag : KnowledgeTag.t := KnowledgeTag.mk 10 5 "b12".

(** Conversions for concrete runs of [parse_knowledge_json]: a non-empty
    string parses to the [UUID] of its length, a number is a [float]. *)
Definition lib_demo : PyLib := {|
  uuid_of_string s := if String.eqb s "" then None else Some (String.length s);
  str_of_uuid _ := "uuid"%string;
  float_of_json v := match v with JNum q => Some q | _ => None end;
  isoformat _ := "now"%string
|}.

Definition demo_json : json :=
  JObj [("type", JStr "insight"); ("summary", JStr "s"); ("content", JStr "c");
        ("confidence", JNum (1 # 2)); ("tags", JArr [JStr "a"; JStr "b"]);
        ("links", JArr [JObj [("link_type", JStr "snp"); ("target_id", JStr "xx")]])]%string.

(** [tags] given as one string. *)
Definition demo_kvs_string_tags : list (string * json) :=
  [("type", JStr "memory"); ("summary", JStr "s"); ("content", JStr "c");
   ("confidence", JNum 1); ("tags", JStr "ab")]%string.

(** No [summary] and no [confidence]. *)
Definition demo_kvs_missing : list (string * json) :=
  [("type", JStr "insight"); ("content", JStr "c"); ("tags", JNum 3)]%string.

(** A deprecated entry that supersedes entry 4, with a link to entry 4. *)
Definition printed_fact : Knowledge.t :=
  Knowledge.mk 5 RECOMMENDATION DEPRECATED "s" "c" (1 # 2) (Some 4) (Some "r"%string) 5.
Definition printed_links : list KnowledgeLink.t := [KnowledgeLink.mk 31 5 KNOWLEDGE 4].


(** * Proofs *)

(** ** The session monad *)

Lemma bind_step {A B} (m : M A) (f : A -> M B) (s : Session) :
  bind m f s = match m s with
               | (inl e, s') => (inl e, s')
               | (inr a, s') => f a s'
               end.
Proof. reflexivity. Qed.

Lemma run_query {A} (f : Store -> A) (d : Store) (n : nat) :
  run (query f) d n = (inr (f d), d).
Proof. reflexivity. Qed.

(** One sqlite write followed by [return]: a failing statement leaves the
    session as it was. *)
Lemma execute_then_ret {A B} (o : Op) (a : A) (b : B) (s : Session) :
  ((SqliteRepo.execute o ;; ret a) ;; ret b) s =
  match apply_op s.(db) o with
  | Some d => (inr b, mkSession d s.(pending) s.(next_uuid))
  | None => (inl IntegrityError, s)
  end.
Proof.
  unfold bind, SqliteRepo.execute, ret. destruct (apply_op (db s) o); reflexivity.
Qed.

(** The link probes of the scripts: the first missing target ends the
    loop, and the store is not touched. *)
Lemma for_each_check_link (links : list KnowledgeLink.t) (s : Session) :
  for_each Scripts.check_link links s =
  match first_missing_target s.(db) links with
  | Some l => (inl (LinkTargetDoesNotExist l.(KnowledgeLink.link_type)
                                           l.(KnowledgeLink.target_id)), s)
  | None => (inr tt, s)
  end.
Proof.
  induction links as [|l links IH]; cbn; [reflexivity|].
  unfold bind, Scripts.check_link, bind, Scripts.validate_link_target_exists, query; cbn.
  destruct (row_exists (db s) (table_map (KnowledgeLink.link_type l))
              (KnowledgeLink.target_id l)); cbn; [exact IH | reflexivity].
Qed.

(** ** Lists of ids *)

Lemma existsb_eqb_in (i : nat) (l : list nat) : existsb (Nat.eqb i) l = true <-> In i l.
Proof.
  rewrite existsb_exists. split.
  - intros [x [Hx E]]. apply Nat.eqb_eq in E. now subst.
  - intros H. exists i. split; [exact H | apply Nat.eqb_refl].
Qed.

Lemma existsb_eqb_notin (i : nat) (l : list nat) : existsb (Nat.eqb i) l = false <-> ~ In i l.
Proof.
  rewrite <- existsb_eqb_in. destruct (existsb (Nat.eqb i) l); split; congruence.
Qed.

(** ** Statements against the store *)

Lemma apply_insert_knowledge (d d' : Store) (k : Knowledge.t) :
  apply_op d (InsertKnowledge k) = Some d' ->
  d' = mkStore (d.(knowledge) ++ [k]) d.(knowledge_tags) d.(knowledge_links) d.(other_rows)
  /\ ~ In k.(Knowledge.id) (knowledge_ids d).
Proof.
  cbn. destruct (existsb (Nat.eqb (Knowledge.id k)) (knowledge_ids d)) eqn:E; [discriminate|].
  intros H; split.
  - destruct (Knowledge.supersedes_id k) as [p|];
      [destruct (existsb (Nat.eqb p) (knowledge_ids d ++ [Knowledge.id k])); [|discriminate]|];
      now injection H.
  - now apply existsb_eqb_notin.
Qed.

Lemma apply_insert_tag (d d' : Store) (t : KnowledgeTag.t) :
  apply_op d (InsertTag t) = Some d' ->
  d' = mkStore d.(knowledge) (d.(knowledge_tags) ++ [t]) d.(knowledge_links) d.(other_rows).
Proof.
  cbn. destruct (existsb (Nat.eqb (KnowledgeTag.id t)) (map KnowledgeTag.id (knowledge_tags d)));
    [discriminate|].
  destruct (existsb (Nat.eqb (KnowledgeTag.knowledge_id t)) (knowledge_ids d)); [|discriminate].
  intros H; now injection H as <-.
Qed.

Lemma apply_insert_link (d d' : Store) (l : KnowledgeLink.t) :
  apply_op d (InsertLink l) = Some d' ->
  d' = mkStore d.(knowledge) d.(knowledge_tags) (d.(knowledge_links) ++ [l]) d.(other_rows).
Proof.
  cbn. destruct (existsb (Nat.eqb (KnowledgeLink.id l)) (map KnowledgeLink.id (knowledge_links d)));
    [discriminate|].
  destruct (existsb (Nat.eqb (KnowledgeLink.knowledge_id l)) (knowledge_ids d)); [|discriminate].
  intros H; now injection H as <-.
Qed.

Lemma apply_op_tag_knowledge (d d' : Store) (t : KnowledgeTag.t) :
  apply_op d (InsertTag t) = Some d' -> d'.(knowledge) = d.(knowledge).
Proof.
  cbn. destruct (existsb (Nat.eqb (KnowledgeTag.id t)) (map KnowledgeTag.id (knowledge_tags d)));
    [discriminate|].
  destruct (existsb (Nat.eqb (KnowledgeTag.knowledge_id t)) (knowledge_ids d)); [|discriminate].
  intros H; now injection H as <-.
Qed.

Lemma apply_op_link_knowledge (d d' : Store) (l : KnowledgeLink.t) :
  apply_op d (InsertLink l) = Some d' -> d'.(knowledge) = d.(knowledge).
Proof.
  cbn. destruct (existsb (Nat.eqb (KnowledgeLink.id l)) (map KnowledgeLink.id (knowledge_links d)));
    [discriminate|].
  destruct (existsb (Nat.eqb (KnowledgeLink.knowledge_id l)) (knowledge_ids d)); [|discriminate].
  intros H; now injection H as <-.
Qed.

Lemma apply_insert_tags (ts : list KnowledgeTag.t) (d d' : Store) :
  apply_ops d (map InsertTag ts) = Some d' ->
  d' = mkStore d.(knowledge) (d.(knowledge_tags) ++ ts) d.(knowledge_links) d.(other_rows).
Proof.
  revert d; induction ts as [|t ts IH]; intros d; cbn.
  - intros H; injection H as <-. destruct d; cbn; now rewrite app_nil_r.
  - destruct (existsb (Nat.eqb (KnowledgeTag.id t)) (map KnowledgeTag.id (knowledge_tags d)));
      [discriminate|].
    destruct (existsb (Nat.eqb (KnowledgeTag.knowledge_id t)) (knowledge_ids d)); [|discriminate].
    intros H; apply IH in H; rewrite H; cbn. now rewrite <- app_assoc.
Qed.

Lemma apply_insert_links (ls : list KnowledgeLink.t) (d d' : Store) :
  apply_ops d (map InsertLink ls) = Some d' ->
  d' = mkStore d.(knowledge) d.(knowledge_tags) (d.(knowledge_links) ++ ls) d.(other_rows).
Proof.
  revert d; induction ls as [|l ls IH]; intros d; cbn.
  - intros H; injection H as <-. destruct d; cbn; now rewrite app_nil_r.
  - destruct (existsb (Nat.eqb (KnowledgeLink.id l)) (map KnowledgeLink.id (knowledge_links d)));
      [discriminate|].
    destruct (existsb (Nat.eqb (KnowledgeLink.knowledge_id l)) (knowledge_ids d)); [|discriminate].
    intros H; apply IH in H; rewrite H; cbn. now rewrite <- app_assoc.
Qed.

(** ** Lookups by id *)

Lemma find_knowledge_some (rows : list Knowledge.t) (i : UUID) (k : Knowledge.t) :
  find_knowledge rows i = Some k -> k.(Knowledge.id) = i /\ In k rows.
Proof.
  unfold find_knowledge; intros H.
  destruct (find_some _ _ H) as [Hin Heq]. apply Nat.eqb_eq in Heq. auto.
Qed.

Lemma find_knowledge_none (rows : list Knowledge.t) (i : UUID) :
  find_knowledge rows i = None <-> ~ In i (map Knowledge.id rows).
Proof.
  induction rows as [|r rows IH]; cbn; [tauto|].
  unfold find_knowledge in *; cbn.
  destruct (Nat.eqb (Knowledge.id r) i) eqn:E.
  - apply Nat.eqb_eq in E. split; [discriminate | intros H; exfalso; auto].
  - apply Nat.eqb_neq in E. rewrite IH. intuition.
Qed.

Lemma find_knowledge_app (l1 l2 : list Knowledge.t) (i : UUID) :
  find_knowledge (l1 ++ l2) i =
  match find_knowledge l1 i with Some k => Some k | None => find_knowledge l2 i end.
Proof.
  induction l1 as [|r l1 IH]; cbn; [reflexivity|].
  unfold find_knowledge in *; cbn. destruct (Nat.eqb (Knowledge.id r) i); [reflexivity|].
  exact IH.
Qed.

(** ** Fresh rows, sorting and filters *)

Lemma map_tag_value_fresh (n : nat) (kid : UUID) (vs : list string) :
  map tag_value (fresh_tags n kid vs) = vs.
Proof.
  revert n; induction vs as [|v vs IH]; intros n; cbn; [reflexivity|]. now rewrite IH.
Qed.

Lemma map_link_target_fresh (n : nat) (kid : UUID) (ts : list (LinkType * UUID)) :
  map link_target (fresh_links n kid ts) = ts.
Proof.
  revert n; induction ts as [|[lt tid] ts IH]; intros n; cbn; [reflexivity|]. now rewrite IH.
Qed.

Lemma fresh_tags_owner (n : nat) (kid : UUID) (vs : list string) :
  Forall (fun t => t.(KnowledgeTag.knowledge_id) = kid) (fresh_tags n kid vs).
Proof.
  revert n; induction vs as [|v vs IH]; intros n; cbn; constructor; auto.
Qed.

Lemma fresh_links_owner (n : nat) (kid : UUID) (ts : list (LinkType * UUID)) :
  Forall (fun l => l.(KnowledgeLink.knowledge_id) = kid) (fresh_links n kid ts).
Proof.
  revert n; induction ts as [|[lt tid] ts IH]; intros n; cbn; constructor; auto.
Qed.

Lemma fresh_tags_ids (n : nat) (kid : UUID) (vs : list string) :
  map KnowledgeTag.id (fresh_tags n kid vs) = seq n (length vs).
Proof.
  revert n; induction vs as [|v vs IH]; intros n; cbn; [reflexivity|]. now rewrite IH.
Qed.

Lemma fresh_links_ids (n : nat) (kid : UUID) (ts : list (LinkType * UUID)) :
  map KnowledgeLink.id (fresh_links n kid ts) = seq n (length ts).
Proof.
  revert n; induction ts as [|[lt tid] ts IH]; intros n; cbn; [reflexivity|]. now rewrite IH.
Qed.

Lemma insert_by_perm {A} (le : A -> A -> bool) (x : A) (l : list A) :
  Permutation (insert_by le x l) (x :: l).
Proof.
  induction l as [|y l IH]; cbn; [reflexivity|].
  destruct (le x y); [reflexivity|].
  rewrite IH. apply perm_swap.
Qed.

Lemma sort_by_perm {A} (le : A -> A -> bool) (l : list A) :
  Permutation (sort_by le l) l.
Proof.
  induction l as [|x l IH]; cbn; [reflexivity|].
  rewrite insert_by_perm. now apply perm_skip.
Qed.

Lemma filter_none {A} (f : A -> bool) (l : list A) :
  Forall (fun x => f x = false) l -> filter f l = [].
Proof. induction 1 as [|x l Hx _ IH]; cbn; [reflexivity|]. now rewrite Hx. Qed.

Lemma filter_every {A} (f : A -> bool) (l : list A) :
  Forall (fun x => f x = true) l -> filter f l = l.
Proof. induction 1 as [|x l Hx _ IH]; cbn; [reflexivity|]. now rewrite Hx, IH. Qed.

Lemma Qltb_spec (a b : Q) : Qltb a b = true <-> (a < b)%Q.
Proof.
  unfold Qltb. rewrite negb_true_iff. split.
  - intros H. apply Qnot_le_lt. intros Hle. apply Qle_bool_iff in Hle. congruence.
  - intros H. destruct (Qle_bool b a) eqn:E; [|reflexivity].
    apply Qle_bool_iff in E. exfalso. now apply (Qlt_not_le a b).
Qed.

Lemma validate_confidence_spec (v : Q) :
  (validate_confidence v = None <-> (v < 0 \/ 1 < v)%Q)
  /\ ((0 <= v <= 1)%Q -> validate_confidence v = Some v).
Proof.
  unfold validate_confidence.
  destruct (Qltb v 0) eqn:E0, (Qltb 1 v) eqn:E1; cbn;
    pose proof (proj1 (Qltb_spec v 0)) as L0; pose proof (proj1 (Qltb_spec 1 v)) as L1;
    pose proof (proj2 (Qltb_spec v 0)) as R0; pose proof (proj2 (Qltb_spec 1 v)) as R1.
  - split; [split; auto|]. intros [H _]. exfalso. apply (Qlt_not_le v 0); auto.
  - split; [split; auto|]. intros [H _]. exfalso. apply (Qlt_not_le v 0); auto.
  - split; [split; auto|]. intros [_ H]. exfalso. apply (Qlt_not_le 1 v); auto.
  - split; [|reflexivity]. split; [discriminate|].
    intros [H | H]; [apply R0 in H | apply R1 in H]; congruence.
Qed.

(** ** Orderings *)

Lemma HdRel_insert_by {A} (le : A -> A -> bool) (a x : A) (l : list A) :
  HdRel (fun u v => le u v = true) a l -> le a x = true ->
  HdRel (fun u v => le u v = true) a (insert_by le x l).
Proof.
  destruct l as [|b l]; cbn; intros H Hax; [now constructor|].
  destruct (le x b); constructor; [exact Hax|]. now inversion H.
Qed.

Lemma insert_by_sorted {A} (le : A -> A -> bool)
    (Htot : forall a b, le a b = true \/ le b a = true) (x : A) (l : list A) :
  Sorted (fun u v => le u v = true) l -> Sorted (fun u v => le u v = true) (insert_by le x l).
Proof.
  induction l as [|y l IH]; cbn; intros H; [now repeat constructor|].
  destruct (le x y) eqn:E.
  - constructor; [exact H | now constructor].
  - inversion H as [|? ? Hs Hhd]; subst.
    assert (Hyx : le y x = true) by (destruct (Htot x y); congruence).
    constructor; [now apply IH|]. now apply HdRel_insert_by.
Qed.

Lemma sort_by_sorted {A} (le : A -> A -> bool)
    (Htot : forall a b, le a b = true \/ le b a = true) (l : list A) :
  Sorted (fun u v => le u v = true) (sort_by le l).
Proof.
  induction l as [|x l IH]; cbn; [constructor|]. now apply insert_by_sorted.
Qed.

Lemma Sorted_weaken {A} (R S : A -> A -> Prop) (l : list A) :
  (forall a b, R a b -> S a b) -> Sorted R l -> Sorted S l.
Proof.
  intros HRS H. induction H as [|x l Hs IH Hhd]; constructor; [exact IH|].
  destruct Hhd; constructor. now apply HRS.
Qed.

Lemma nat_leb_total (a b : nat) : Nat.leb a b = true \/ Nat.leb b a = true.
Proof.
  destruct (Nat.le_ge_cases a b) as [H|H]; [left|right]; now apply Nat.leb_le.
Qed.

(** ** The session repository *)

(** [supersede] of the session repository ends at its first statement,
    [session.get]: it raises [NoInspectionAvailable] and leaves the store
    as it was. *)
Lemma supersede_run (d : Store) (n : nat) (old_id : UUID) (k : Knowledge.t)
    (tags : list KnowledgeTag.t) (links : list KnowledgeLink.t) :
  run (supersede old_id k tags links) d n = (inl NoInspectionAvailable, d).
Proof. reflexivity. Qed.

(** [cmd_create] never stores anything: the first link probe raises
    [TypeError]; with no link, the [session.add] of [save_knowledge]
    raises [UnmappedInstanceError]. *)
Lemma cmd_create_run (d : Store) (n : nat) (k : Knowledge.t)
    (tags : list KnowledgeTag.t) (links : list KnowledgeLink.t) :
  run (cmd_create k tags links) d n
  = (inl (match links with [] => UnmappedInstanceError | _ :: _ => TypeError end), d).
Proof. destruct links; reflexivity. Qed.

(** ** The sqlite repository's [supersede] *)

(** Two rows of a table whose primary key holds are equal when their ids
    are. *)
Lemma pk_unique (rows : list Knowledge.t) (a b : Knowledge.t) :
  NoDup (map Knowledge.id rows) -> In a rows -> In b rows ->
  a.(Knowledge.id) = b.(Knowledge.id) -> a = b.
Proof.
  induction rows as [|r rows IH]; [intros _ []|].
  cbn. intros Hnd Ha Hb E. inversion Hnd as [|? ? Hr Hnd']; subst.
  destruct Ha as [<- | Ha], Hb as [<- | Hb]; try reflexivity.
  - exfalso. apply Hr. rewrite E. now apply in_map.
  - exfalso. apply Hr. rewrite <- E. now apply in_map.
  - now apply IH.
Qed.

Lemma deprecate_rows_app (old_id : UUID) (l1 l2 : list Knowledge.t) :
  SqliteRepo.deprecate_rows old_id (l1 ++ l2)
  = SqliteRepo.deprecate_rows old_id l1 ++ SqliteRepo.deprecate_rows old_id l2.
Proof. apply map_app. Qed.

Lemma deprecate_rows_other (old_id : UUID) (rows : list Knowledge.t) :
  ~ In old_id (map Knowledge.id rows) -> SqliteRepo.deprecate_rows old_id rows = rows.
Proof.
  induction rows as [|r rows IH]; cbn; intros H; [reflexivity|].
  destruct (Nat.eqb (Knowledge.id r) old_id) eqn:E.
  - apply Nat.eqb_eq in E. tauto.
  - f_equal. apply IH. tauto.
Qed.


Lemma find_deprecate_rows (old_id : UUID) (rows : list Knowledge.t) :
  find_knowledge (SqliteRepo.deprecate_rows old_id rows) old_id
  = option_map (fun r => Knowledge.set_status r DEPRECATED) (find_knowledge rows old_id).
Proof.
  unfold find_knowledge, SqliteRepo.deprecate_rows.
  induction rows as [|r rows IH]; cbn; [reflexivity|].
  destruct (Nat.eqb (Knowledge.id r) old_id) eqn:E; cbn; rewrite ?E; [reflexivity|exact IH].
Qed.

Lemma filter_deprecate_rows_old (old_id : UUID) (rows : list Knowledge.t) :
  filter (fun r => Nat.eqb r.(Knowledge.id) old_id) (SqliteRepo.deprecate_rows old_id rows)
  = map (fun r => Knowledge.set_status r DEPRECATED)
        (filter (fun r => Nat.eqb r.(Knowledge.id) old_id) rows).
Proof.
  unfold SqliteRepo.deprecate_rows.
  induction rows as [|r rows IH]; cbn; [reflexivity|].
  destruct (Nat.eqb (Knowledge.id r) old_id) eqn:E; cbn; rewrite ?E, IH; reflexivity.
Qed.

Lemma filter_deprecate_rows_other (old_id : UUID) (rows : list Knowledge.t) :
  filter (fun r => negb (Nat.eqb r.(Knowledge.id) old_id)) (SqliteRepo.deprecate_rows old_id rows)
  = filter (fun r => negb (Nat.eqb r.(Knowledge.id) old_id)) rows.
Proof.
  unfold SqliteRepo.deprecate_rows.
  induction rows as [|r rows IH]; cbn; [reflexivity|].
  destruct (Nat.eqb (Knowledge.id r) old_id) eqn:E; cbn; rewrite ?E, IH; reflexivity.
Qed.

(** How the sqlite [supersede] runs on a session: the INSERT goes through
    when the new id is free and [old_id] names an entry or the new row
    itself; then every row [old_id] is deprecated. *)
Lemma sqlite_supersede_session (d : Store) (p : list Op) (m : nat) (old_id : UUID)
    (k : Knowledge.t) :
  SqliteRepo.supersede old_id k (mkSession d p m) =
    if negb (existsb (Nat.eqb k.(Knowledge.id)) (knowledge_ids d))
       && (existsb (Nat.eqb old_id) (knowledge_ids d) || Nat.eqb old_id k.(Knowledge.id))
    then (inr (Knowledge.set_supersedes_id k (Some old_id)),
          mkSession (mkStore (SqliteRepo.deprecate_rows old_id
                                (d.(knowledge) ++ [Knowledge.set_supersedes_id k (Some old_id)]))
                             d.(knowledge_tags) d.(knowledge_links) d.(other_rows)) p m)
    else (inl IntegrityError, mkSession d p m).
Proof.
  destruct k as [kid kty kst ksum kcon kconf ksup kreas kca].
  unfold SqliteRepo.supersede, bind, SqliteRepo.execute, SqliteRepo.update_status, ret.
  cbn [db pending next_uuid apply_op].
  cbn [Knowledge.set_supersedes_id Knowledge.id Knowledge.supersedes_id].
  rewrite existsb_app. cbn [existsb]. rewrite orb_false_r.
  destruct (existsb (Nat.eqb kid) (knowledge_ids d)); [reflexivity|].
  cbn [negb andb]. unfold UUID in *.
  repeat match goal with |- context [if ?c then _ else _] => destruct c end; reflexivity.
Qed.

Lemma sqlite_supersede_inr (d d' : Store) (n : nat) (old_id : UUID) (k nk : Knowledge.t) :
  run (SqliteRepo.supersede old_id k) d n = (inr nk, d') ->
  nk = Knowledge.set_supersedes_id k (Some old_id)
  /\ ~ In k.(Knowledge.id) (knowledge_ids d)
  /\ (In old_id (knowledge_ids d) \/ old_id = k.(Knowledge.id))
  /\ d' = mkStore (SqliteRepo.deprecate_rows old_id (d.(knowledge) ++ [nk]))
                  d.(knowledge_tags) d.(knowledge_links) d.(other_rows).
Proof.
  unfold run. rewrite sqlite_supersede_session.
  destruct (existsb (Nat.eqb (Knowledge.id k)) (knowledge_ids d)) eqn:Ek; cbn [negb andb];
    [discriminate|].
  destruct (existsb (Nat.eqb old_id) (knowledge_ids d)) eqn:Eo; cbn [orb].
  - intros H; injection H as <- <-. split; [reflexivity|].
    split; [now apply existsb_eqb_notin|].
    split; [left; now apply existsb_eqb_in | reflexivity].
  - destruct (Nat.eqb old_id (Knowledge.id k)) eqn:Es; [|discriminate].
    intros H; injection H as <- <-. split; [reflexivity|].
    split; [now apply existsb_eqb_notin|].
    split; [right; now apply Nat.eqb_eq | reflexivity].
Qed.

(** When [old_id] names an entry, a [supersede] that commits appends the
    new entry after the old rows, deprecates the rows [old_id] and leaves
    the new one as given. *)
Lemma sqlite_supersede_found (d d' : Store) (n : nat) (old_id : UUID) (o k nk : Knowledge.t) :
  find_knowledge d.(knowledge) old_id = Some o ->
  run (SqliteRepo.supersede old_id k) d n = (inr nk, d') ->
  nk = Knowledge.set_supersedes_id k (Some old_id)
  /\ ~ In k.(Knowledge.id) (knowledge_ids d)
  /\ k.(Knowledge.id) <> old_id
  /\ d' = mkStore (SqliteRepo.deprecate_rows old_id d.(knowledge) ++ [nk])
                  d.(knowledge_tags) d.(knowledge_links) d.(other_rows).
Proof.
  intros Hf H.
  destruct (sqlite_supersede_inr _ _ _ _ _ _ H) as [Enk [Hfresh [_ ->]]].
  destruct (find_knowledge_some _ _ _ Hf) as [Hid Hin].
  assert (Hne : k.(Knowledge.id) <> old_id).
  { intros E. apply Hfresh. unfold knowledge_ids. rewrite E, <- Hid. now apply in_map. }
  split; [exact Enk|]. split; [exact Hfresh|]. split; [exact Hne|].
  rewrite deprecate_rows_app, (deprecate_rows_other old_id [nk]); [reflexivity|].
  rewrite Enk. cbn. intros [E|[]]. exact (Hne E).
Qed.

(** ** The commands of the scripts *)

(** A loop of sqlite inserts, each committed on its own: on success the
    store has gone through all of them; on failure it keeps those before
    the failing one, and the knowledge table is untouched. *)
Lemma for_each_insert_tags (tags : list KnowledgeTag.t) (s : Session) :
  match apply_ops s.(db) (map InsertTag tags) with
  | Some d' => for_each (fun t => SqliteRepo.insert_tag t ;; ret tt) tags s
               = (inr tt, mkSession d' s.(pending) s.(next_uuid))
  | None => exists d'', for_each (fun t => SqliteRepo.insert_tag t ;; ret tt) tags s
                        = (inl IntegrityError, mkSession d'' s.(pending) s.(next_uuid))
                        /\ d''.(knowledge) = s.(db).(knowledge)
  end.
Proof.
  revert s; induction tags as [|t tags IH]; intros [d p m]; cbn [apply_ops map db].
  - reflexivity.
  - cbn [for_each].
    pose proof (execute_then_ret (InsertTag t) t tt (mkSession d p m)) as Hs.
    change ((SqliteRepo.execute (InsertTag t) ;; ret t) ;; ret tt)
      with (SqliteRepo.insert_tag t ;; ret tt) in Hs. cbn [db pending next_uuid] in Hs.
    destruct (apply_op d (InsertTag t)) as [d1|] eqn:E; rewrite bind_step, Hs.
    + specialize (IH (mkSession d1 p m)); cbn [db pending next_uuid] in IH.
      destruct (apply_ops d1 (map InsertTag tags)); [exact IH|].
      destruct IH as [d'' [H1 H2]]. exists d''. split; [exact H1|].
      rewrite H2. exact (apply_op_tag_knowledge _ _ _ E).
    + exists d. split; reflexivity.
Qed.

Lemma for_each_insert_links (links : list KnowledgeLink.t) (s : Session) :
  match apply_ops s.(db) (map InsertLink links) with
  | Some d' => for_each (fun l => SqliteRepo.insert_link l ;; ret tt) links s
               = (inr tt, mkSession d' s.(pending) s.(next_uuid))
  | None => exists d'', for_each (fun l => SqliteRepo.insert_link l ;; ret tt) links s
                        = (inl IntegrityError, mkSession d'' s.(pending) s.(next_uuid))
                        /\ d''.(knowledge) = s.(db).(knowledge)
  end.
Proof.
  revert s; induction links as [|l links IH]; intros [d p m]; cbn [apply_ops map db].
  - reflexivity.
  - cbn [for_each].
    pose proof (execute_then_ret (InsertLink l) l tt (mkSession d p m)) as Hs.
    change ((SqliteRepo.execute (InsertLink l) ;; ret l) ;; ret tt)
      with (SqliteRepo.insert_link l ;; ret tt) in Hs. cbn [db pending next_uuid] in Hs.
    destruct (apply_op d (InsertLink l)) as [d1|] eqn:E; rewrite bind_step, Hs.
    + specialize (IH (mkSession d1 p m)); cbn [db pending next_uuid] in IH.
      destruct (apply_ops d1 (map InsertLink links)); [exact IH|].
      destruct IH as [d'' [H1 H2]]. exists d''. split; [exact H1|].
      rewrite H2. exact (apply_op_link_knowledge _ _ _ E).
    + exists d. split; reflexivity.
Qed.

(** How [cmd_add] runs: the link probes, the insert of the entry, then
    the tag and link inserts, each committed on its own. *)
Lemma cmd_add_run (d : Store) (n : nat) (k : Knowledge.t)
    (tags : list KnowledgeTag.t) (links : list KnowledgeLink.t) :
  run (Scripts.cmd_add k tags links) d n =
    match first_missing_target d links with
    | Some l => (inl (LinkTargetDoesNotExist l.(KnowledgeLink.link_type)
                                             l.(KnowledgeLink.target_id)), d)
    | None =>
        match apply_op d (InsertKnowledge k) with
        | None => (inl IntegrityError, d)
        | Some d1 =>
            let (r, s) := (for_each (fun t => SqliteRepo.insert_tag t ;; ret tt) tags ;;
                           for_each (fun l => SqliteRepo.insert_link l ;; ret tt) links)
                            (mkSession d1 [] n) in
            (r, s.(db))
        end
    end.
Proof.
  unfold run, Scripts.cmd_add. rewrite bind_step, for_each_check_link. cbn [db].
  destruct (first_missing_target d links); [reflexivity|].
  rewrite bind_step. unfold SqliteRepo.insert_knowledge at 1.
  rewrite bind_step. unfold SqliteRepo.execute at 1; cbn [db].
  destruct (apply_op d (InsertKnowledge k)); reflexivity.
Qed.


(** The tag loop of the scripts' [cmd_supersede]: one new row per given
    tag, with ids [m], [m+1], ... from [uuid4], when every stored tag id is
    below [m] and the entry [kid] exists. *)
Lemma scripts_tag_loop (kid : UUID) (tags : list KnowledgeTag.t) (D : Store) (p : list Op) (m : nat) :
  Forall (fun t => t.(KnowledgeTag.id) < m) D.(knowledge_tags) ->
  In kid (knowledge_ids D) ->
  for_each (fun t => i <- uuid4 ;;
                     SqliteRepo.insert_tag (KnowledgeTag.mk i kid t.(KnowledgeTag.tag)) ;;
                     ret tt) tags (mkSession D p m)
  = (inr tt, mkSession (mkStore D.(knowledge)
                                (D.(knowledge_tags) ++ fresh_tags m kid (map tag_value tags))
                                D.(knowledge_links) D.(other_rows))
                       p (m + length tags)).
Proof.
  revert D m; induction tags as [|t tags IH]; intros D m Hlt Hkid.
  - cbn. destruct D; cbn. now rewrite app_nil_r, Nat.add_0_r.
  - cbn [for_each]. rewrite bind_step.
    unfold bind at 1, uuid4 at 1; cbn [db pending next_uuid].
    unfold SqliteRepo.insert_tag at 1. rewrite (execute_then_ret (InsertTag _)).
    cbn [db apply_op KnowledgeTag.id KnowledgeTag.knowledge_id].
    assert (existsb (Nat.eqb m) (map KnowledgeTag.id (knowledge_tags D)) = false) as ->.
    { apply existsb_eqb_notin. rewrite in_map_iff. intros [t' [Ht' Hin]].
      rewrite Forall_forall in Hlt. specialize (Hlt t' Hin). lia. }
    assert (existsb (Nat.eqb kid) (knowledge_ids D) = true) as -> by now apply existsb_eqb_in.
    cbn [pending next_uuid].
    rewrite IH; cbn [knowledge knowledge_tags knowledge_links other_rows].
    + cbn [map fresh_tags length]. rewrite <- app_assoc, Nat.add_succ_r. reflexivity.
    + cbn. apply Forall_app. split.
      * eapply Forall_impl; [|exact Hlt]. intros a Ha. cbn in Ha. lia.
      * constructor; [cbn; lia | constructor].
    + exact Hkid.
Qed.

Lemma scripts_link_loop (kid : UUID) (links : list KnowledgeLink.t) (D : Store) (p : list Op) (m : nat) :
  Forall (fun l => l.(KnowledgeLink.id) < m) D.(knowledge_links) ->
  In kid (knowledge_ids D) ->
  Scripts.map_m (fun l => i <- uuid4 ;;
                          SqliteRepo.insert_link
                            (KnowledgeLink.mk i kid l.(KnowledgeLink.link_type)
                                              l.(KnowledgeLink.target_id))) links (mkSession D p m)
  = (inr (fresh_links m kid (map link_target links)),
     mkSession (mkStore D.(knowledge) D.(knowledge_tags)
                        (D.(knowledge_links) ++ fresh_links m kid (map link_target links))
                        D.(other_rows))
               p (m + length links)).
Proof.
  revert D m; induction links as [|l links IH]; intros D m Hlt Hkid.
  - cbn. destruct D; cbn. now rewrite app_nil_r, Nat.add_0_r.
  - cbn [Scripts.map_m]. rewrite bind_step.
    unfold bind at 1, uuid4 at 1; cbn [db pending next_uuid].
    unfold SqliteRepo.insert_link at 1. rewrite bind_step. unfold SqliteRepo.execute at 1.
    cbn [db apply_op KnowledgeLink.id KnowledgeLink.knowledge_id].
    assert (existsb (Nat.eqb m) (map KnowledgeLink.id (knowledge_links D)) = false) as ->.
    { apply existsb_eqb_notin. rewrite in_map_iff. intros [l' [Hl' Hin]].
      rewrite Forall_forall in Hlt. specialize (Hlt l' Hin). lia. }
    assert (existsb (Nat.eqb kid) (knowledge_ids D) = true) as -> by now apply existsb_eqb_in.
    cbn [pending next_uuid ret]. rewrite bind_step.
    rewrite IH; cbn [knowledge knowledge_tags knowledge_links other_rows].
    + destruct l as [li lk lt tid]. cbn [map fresh_links length link_target ret
        KnowledgeLink.link_type KnowledgeLink.target_id].
      rewrite <- app_assoc, Nat.add_succ_r. reflexivity.
    + cbn. apply Forall_app. split.
      * eapply Forall_impl; [|exact Hlt]. intros a Ha. cbn in Ha. lia.
      * constructor; [cbn; lia | constructor].
    + exact Hkid.
Qed.

Lemma scripts_printed_tags (kid : UUID) (tags : list KnowledgeTag.t) (s : Session) :
  Scripts.map_m (fun t => i <- uuid4 ;; ret (KnowledgeTag.mk i kid t.(KnowledgeTag.tag))) tags s
  = (inr (fresh_tags s.(next_uuid) kid (map tag_value tags)),
     mkSession s.(db) s.(pending) (s.(next_uuid) + length tags)).
Proof.
  revert s; induction tags as [|t tags IH]; intros [D p m].
  - cbn. now rewrite Nat.add_0_r.
  - cbn [Scripts.map_m]. rewrite bind_step. unfold bind at 1, uuid4 at 1; cbn [db pending next_uuid ret].
    rewrite bind_step, IH. cbn. now rewrite Nat.add_succ_r.
Qed.

(** The tag loop of [cmd_supersede], read back from a run that went
    through. *)
Lemma scripts_tag_loop_inr (kid : UUID) (tags : list KnowledgeTag.t) (D : Store) (p : list Op)
    (m : nat) (s' : Session) :
  for_each (fun t => i <- uuid4 ;;
                     SqliteRepo.insert_tag (KnowledgeTag.mk i kid t.(KnowledgeTag.tag)) ;;
                     ret tt) tags (mkSession D p m) = (inr tt, s') ->
  s' = mkSession (mkStore D.(knowledge)
                          (D.(knowledge_tags) ++ fresh_tags m kid (map tag_value tags))
                          D.(knowledge_links) D.(other_rows))
                 p (m + length tags).
Proof.
  revert D m; induction tags as [|t tags IH]; intros D m.
  - cbn. intros H; injection H as <-. destruct D; cbn. now rewrite app_nil_r, Nat.add_0_r.
  - cbn [for_each]. rewrite bind_step.
    unfold bind at 1, uuid4 at 1; cbn [db pending next_uuid].
    unfold SqliteRepo.insert_tag at 1. rewrite (execute_then_ret (InsertTag _)).
    cbn [db].
    match goal with |- context [apply_op D ?o] => destruct (apply_op D o) as [D1|] eqn:E end;
      [|discriminate].
    apply apply_insert_tag in E. subst D1. cbn [pending next_uuid].
    intros H. apply IH in H. rewrite H. cbn [knowledge knowledge_tags knowledge_links other_rows].
    cbn [map fresh_tags length]. rewrite <- app_assoc, Nat.add_succ_r. reflexivity.
Qed.

(** The link loop of [cmd_supersede], read back from a run that went
    through. *)
Lemma scripts_link_loop_inr (kid : UUID) (links : list KnowledgeLink.t) (D : Store)
    (p : list Op) (m : nat) (ls : list KnowledgeLink.t) (s' : Session) :
  Scripts.map_m (fun l => i <- uuid4 ;;
                          SqliteRepo.insert_link
                            (KnowledgeLink.mk i kid l.(KnowledgeLink.link_type)
                                              l.(KnowledgeLink.target_id))) links (mkSession D p m)
  = (inr ls, s') ->
  ls = fresh_links m kid (map link_target links)
  /\ s' = mkSession (mkStore D.(knowledge) D.(knowledge_tags)
                             (D.(knowledge_links) ++ fresh_links m kid (map link_target links))
                             D.(other_rows))
                    p (m + length links).
Proof.
  revert D m ls s'; induction links as [|l links IH]; intros D m ls s'.
  - cbn. intros H; injection H as <- <-. split; [reflexivity|].
    destruct D; cbn. now rewrite app_nil_r, Nat.add_0_r.
  - cbn [Scripts.map_m]. rewrite bind_step.
    unfold bind at 1, uuid4 at 1; cbn [db pending next_uuid].
    unfold SqliteRepo.insert_link at 1. rewrite bind_step. unfold SqliteRepo.execute at 1.
    cbn [db].
    match goal with |- context [apply_op D ?o] => destruct (apply_op D o) as [D1|] eqn:E end;
      [|discriminate].
    apply apply_insert_link in E. subst D1. cbn [pending next_uuid ret]. rewrite bind_step.
    match goal with |- context [Scripts.map_m ?f links ?s] =>
      destruct (Scripts.map_m f links s) as [[e|ys] s2] eqn:Hl; [discriminate|] end.
    apply IH in Hl as [-> ->]. cbn [ret]. intros H; injection H as <- <-.
    cbn [knowledge knowledge_tags knowledge_links other_rows].
    destruct l as [li lk lt tid]. cbn [map fresh_links length link_target
      KnowledgeLink.link_type KnowledgeLink.target_id].
    split; [reflexivity|]. rewrite <- app_assoc, Nat.add_succ_r. reflexivity.
Qed.

(** A run of [cmd_supersede] that goes through: [old_id] named an entry,
    every link target exists, the new id was free, and the rows written
    are the new entry, one fresh tag row per given tag and one fresh link
    row per given link. *)
Lemma cmd_supersede_inr (d d' : Store) (n : nat) (old_id : UUID) (k nk : Knowledge.t)
    (tags : list KnowledgeTag.t) (links : list KnowledgeLink.t)
    (printed : list KnowledgeTag.t) (new_links : list KnowledgeLink.t) :
  run (Scripts.cmd_supersede old_id k tags links) d n = (inr (nk, printed, new_links), d') ->
  exists o,
    find_knowledge d.(knowledge) old_id = Some o
    /\ first_missing_target d links = None
    /\ nk = Knowledge.set_supersedes_id k (Some old_id)
    /\ ~ In k.(Knowledge.id) (knowledge_ids d)
    /\ new_links = fresh_links (n + length tags) k.(Knowledge.id) (map link_target links)
    /\ printed = fresh_tags (n + length tags + length links) k.(Knowledge.id)
                            (map tag_value tags)
    /\ d' = mkStore (SqliteRepo.deprecate_rows old_id d.(knowledge) ++ [nk])
                    (d.(knowledge_tags) ++ fresh_tags n k.(Knowledge.id) (map tag_value tags))
                    (d.(knowledge_links) ++ new_links) d.(other_rows).
Proof.
  unfold run, Scripts.cmd_supersede. rewrite bind_step.
  unfold SqliteRepo.get_by_id at 1, query at 1; cbn [db].
  destruct (find_knowledge (knowledge d) old_id) as [o|] eqn:Hf; [|discriminate].
  rewrite bind_step, for_each_check_link; cbn [db].
  destruct (first_missing_target d links) eqn:Hm; [discriminate|].
  cbv beta iota. rewrite bind_step, sqlite_supersede_session.
  destruct (existsb (Nat.eqb (Knowledge.id k)) (knowledge_ids d)) eqn:Ek; cbn [negb andb];
    [discriminate|].
  destruct (existsb (Nat.eqb old_id) (knowledge_ids d) || Nat.eqb old_id (Knowledge.id k));
    [|discriminate].
  apply existsb_eqb_notin in Ek.
  destruct (find_knowledge_some _ _ _ Hf) as [Hid Hin].
  assert (Hne : k.(Knowledge.id) <> old_id).
  { intros E. apply Ek. unfold knowledge_ids. rewrite E, <- Hid. now apply in_map. }
  rewrite deprecate_rows_app,
    (deprecate_rows_other old_id [Knowledge.set_supersedes_id k (Some old_id)])
    by (cbn; intros [E|[]]; exact (Hne E)).
  cbv beta iota. rewrite bind_step.
  match goal with |- context [for_each ?f tags ?s] =>
    destruct (for_each f tags s) as [[e|[]] s2] eqn:Ht; [discriminate|] end.
  apply scripts_tag_loop_inr in Ht. subst s2.
  cbv beta iota. rewrite bind_step.
  match goal with |- context [Scripts.map_m ?f links ?s] =>
    destruct (Scripts.map_m f links s) as [[e|ls] s3] eqn:Hl; [discriminate|] end.
  apply scripts_link_loop_inr in Hl as [-> ->].
  cbv beta iota. rewrite bind_step, scripts_printed_tags.
  cbn [ret db next_uuid knowledge knowledge_tags knowledge_links other_rows].
  intros H; injection H as <- <- <- <-.
  exists o. cbn [Knowledge.id Knowledge.set_supersedes_id].
  repeat split; assumption.
Qed.

(** The loops of [cmd_supersede] read only the tag values and the link
    targets of the objects passed in. *)
Lemma first_missing_target_values (d : Store) (links links' : list KnowledgeLink.t) :
  map link_target links' = map link_target links ->
  option_map link_target (first_missing_target d links')
  = option_map link_target (first_missing_target d links).
Proof.
  unfold first_missing_target.
  revert links; induction links' as [|l' links' IH]; intros [|l links] H; try discriminate;
    [reflexivity|].
  cbn [map] in H. unfold link_target at 1 2 in H. injection H as Hlt Htid Hrest.
  cbn [find]. rewrite Hlt, Htid.
  destruct (negb (row_exists d (table_map (KnowledgeLink.link_type l)) (KnowledgeLink.target_id l)));
    cbn; [unfold link_target; now rewrite Hlt, Htid | exact (IH links Hrest)].
Qed.

Lemma tag_loop_values (kid : UUID) (tags tags' : list KnowledgeTag.t) :
  map tag_value tags' = map tag_value tags ->
  for_each (fun t => i <- uuid4 ;;
                     SqliteRepo.insert_tag (KnowledgeTag.mk i kid t.(KnowledgeTag.tag)) ;;
                     ret tt) tags'
  = for_each (fun t => i <- uuid4 ;;
                       SqliteRepo.insert_tag (KnowledgeTag.mk i kid t.(KnowledgeTag.tag)) ;;
                       ret tt) tags.
Proof.
  revert tags; induction tags' as [|t' tags' IH]; intros [|t tags] H; try discriminate;
    [reflexivity|].
  cbn [map] in H. unfold tag_value at 1 2 in H. injection H as Ht Hrest. cbn [for_each].
  rewrite Ht, (IH tags Hrest). reflexivity.
Qed.

Lemma link_loop_values (kid : UUID) (links links' : list KnowledgeLink.t) :
  map link_target links' = map link_target links ->
  Scripts.map_m (fun l => i <- uuid4 ;;
                          SqliteRepo.insert_link
                            (KnowledgeLink.mk i kid l.(KnowledgeLink.link_type)
                                              l.(KnowledgeLink.target_id))) links'
  = Scripts.map_m (fun l => i <- uuid4 ;;
                            SqliteRepo.insert_link
                              (KnowledgeLink.mk i kid l.(KnowledgeLink.link_type)
                                                l.(KnowledgeLink.target_id))) links.
Proof.
  revert links; induction links' as [|l' links' IH]; intros [|l links] H; try discriminate;
    [reflexivity|].
  cbn [map] in H. unfold link_target at 1 2 in H. injection H as Hlt Htid Hrest.
  cbn [Scripts.map_m]. rewrite Hlt, Htid, (IH links Hrest). reflexivity.
Qed.

Lemma printed_tags_values (kid : UUID) (tags tags' : list KnowledgeTag.t) :
  map tag_value tags' = map tag_value tags ->
  Scripts.map_m (fun t => i <- uuid4 ;; ret (KnowledgeTag.mk i kid t.(KnowledgeTag.tag))) tags'
  = Scripts.map_m (fun t => i <- uuid4 ;; ret (KnowledgeTag.mk i kid t.(KnowledgeTag.tag))) tags.
Proof.
  revert tags; induction tags' as [|t' tags' IH]; intros [|t tags] H; try discriminate;
    [reflexivity|].
  cbn [map] in H. unfold tag_value at 1 2 in H. injection H as Ht Hrest. cbn [Scripts.map_m].
  rewrite Ht, (IH tags Hrest). reflexivity.
Qed.

(** [cmd_supersede] on tags and links with the same values and targets
    runs the same way. *)
Lemma cmd_supersede_values (old_id : UUID) (k : Knowledge.t) (tags tags' : list KnowledgeTag.t)
    (links links' : list KnowledgeLink.t) (s : Session) :
  map tag_value tags' = map tag_value tags ->
  map link_target links' = map link_target links ->
  Scripts.cmd_supersede old_id k tags' links' s = Scripts.cmd_supersede old_id k tags links s.
Proof.
  intros Et El. unfold Scripts.cmd_supersede. rewrite !bind_step.
  unfold SqliteRepo.get_by_id, query. cbv beta iota.
  destruct (find_knowledge (knowledge (db s)) old_id); [|reflexivity].
  rewrite !bind_step, !for_each_check_link.
  pose proof (first_missing_target_values (db s) links links' El) as Hfm.
  destruct (first_missing_target (db s) links') as [l'|] eqn:E1;
    destruct (first_missing_target (db s) links) as [l|] eqn:E2;
    cbn in Hfm; try discriminate; cbv beta iota.
  - unfold link_target in Hfm. injection Hfm as Hlt Htid.
    rewrite Hlt, Htid. reflexivity.
  - rewrite !bind_step.
    destruct (SqliteRepo.supersede old_id k s) as [[e|nk] s1]; [reflexivity|].
    cbv beta iota.
    rewrite (tag_loop_values _ tags tags' Et), (link_loop_values _ links links' El),
      (printed_tags_values _ tags tags' Et).
    reflexivity.
Qed.

(** * The claims *)


(** C2: the session repository's [list_active] raises [ArgumentError]
    whatever the store holds, so it never lists the scenario's entries.
    The sqlite repository's [get_active], on the store the scenario
    leaves (A, B, C added at t = 1, 2, 3, then B superseded by B2 at
    t = 4), returns B2, C, A: newest first, B left out. *)
Theorem list_active_scenario_order :
  (forall d n, run list_active d n = (inl ArgumentError, d))
  /\ run SqliteRepo.get_active store_ABC_B2 0 = (inr (get_active_rows store_ABC_B2), store_ABC_B2)
  /\ map Knowledge.id (get_active_rows store_ABC_B2) = [4; 3; 1]
  /\ map Knowledge.created_at (get_active_rows store_ABC_B2) = [4; 3; 1].
Proof.
  split; [intros d n; reflexivity|].
  split; [reflexivity|]. split; vm_compute; reflexivity.
Qed.

(** C3: [cmd_create] stores nothing in any case: when a link is given,
    the first probe of [validate_link_target_exists] raises [TypeError]
    (a missing target is never reported); with no link, [session.add]
    raises [UnmappedInstanceError].  The scripts' [cmd_add] does report
    the first missing target, before writing anything. *)
Theorem cmd_create_atomic (d : Store) (n : nat) (k : Knowledge.t)
    (tags : list KnowledgeTag.t) (links : list KnowledgeLink.t) :
  run (cmd_create k tags links) d n
  = (inl (match links with [] => UnmappedInstanceError | _ :: _ => TypeError end), d)
  /\ match first_missing_target d links with
     | Some l => run (Scripts.cmd_add k tags links) d n
                 = (inl (LinkTargetDoesNotExist l.(KnowledgeLink.link_type)
                                                l.(KnowledgeLink.target_id)), d)
     | None => True
     end.
Proof.
  split; [apply cmd_create_run|].
  rewrite cmd_add_run. destruct (first_missing_target d links); [reflexivity | exact I].
Qed.

(** C4: the session repository's [supersede] raises
    [NoInspectionAvailable] (not a "not found" error) whether or not
    [old_id] names an entry.  On the sibling paths, when [old_id] names
    no entry: the scripts' [cmd_supersede] ends with "Knowledge not found"
    and writes nothing; the sqlite repository's [supersede] raises
    [IntegrityError] and writes nothing when [old_id] is not the new id,
    but commits when [old_id] is the new id (a fresh one): the new row
    then references itself. *)
Theorem supersede_missing_old (d : Store) (n : nat) (old_id : UUID) (k : Knowledge.t)
    (tags : list KnowledgeTag.t) (links : list KnowledgeLink.t) :
  run (supersede old_id k tags links) d n = (inl NoInspectionAvailable, d)
  /\ (find_knowledge d.(knowledge) old_id = None ->
      run (Scripts.cmd_supersede old_id k tags links) d n = (inl (KnowledgeNotFound old_id), d)
      /\ (old_id <> k.(Knowledge.id) ->
          run (SqliteRepo.supersede old_id k) d n = (inl IntegrityError, d))
      /\ (old_id = k.(Knowledge.id) ->
          fst (run (SqliteRepo.supersede old_id k) d n)
          = inr (Knowledge.set_supersedes_id k (Some old_id)))).
Proof.
  split; [apply supersede_run|]. intros Hf. split; [|split].
  - unfold run, Scripts.cmd_supersede. rewrite bind_step.
    unfold SqliteRepo.get_by_id at 1, query at 1; cbn [db]. rewrite Hf. reflexivity.
  - intros Hne. unfold run. rewrite sqlite_supersede_session.
    apply find_knowledge_none in Hf.
    rewrite (proj2 (existsb_eqb_notin old_id (knowledge_ids d)) Hf), (proj2 (Nat.eqb_neq _ _) Hne).
    destruct (existsb (Nat.eqb (Knowledge.id k)) (knowledge_ids d)); reflexivity.
  - intros Heq. unfold run. rewrite sqlite_supersede_session.
    apply find_knowledge_none in Hf.
    rewrite <- Heq, (proj2 (existsb_eqb_notin old_id (knowledge_ids d)) Hf), Nat.eqb_refl.
    reflexivity.
Qed.


(** C6: constructing an entry with a confidence below 0 or above 1 is
    rejected; 0 and 1 are accepted; an accepted confidence is stored as
    given (never clamped). *)
Theorem confidence_closed_interval :
  (forall i ty st summary content v sup reason t,
      (v < 0 \/ 1 < v)%Q ->
      make_knowledge i ty st summary content v sup reason t = None)
  /\ (forall i ty st summary content v sup reason t,
      (0 <= v <= 1)%Q ->
      make_knowledge i ty st summary content v sup reason t
      = Some (Knowledge.mk i ty st summary content v sup reason t))
  /\ validate_confidence 0 = Some 0%Q
  /\ validate_confidence 1 = Some 1%Q.
Proof.
  split; [|split; [|split]].
  - intros i ty st summary content v sup reason t H. unfold make_knowledge.
    now rewrite (proj2 (proj1 (validate_confidence_spec v)) H).
  - intros i ty st summary content v sup reason t H. unfold make_knowledge.
    now rewrite (proj2 (validate_confidence_spec v) H).
  - reflexivity.
  - reflexivity.
Qed.

(** C7: the session repository's [get_by_tag] raises [AttributeError]
    whatever the store holds and whatever the tag.  The sqlite
    repository's [get_by_tag], on a store where entry 1 carries the tag
    twice and the deprecated entry 2 once, returns each of them once, the
    deprecated one included. *)
Theorem get_by_tag_exact :
  (forall d n v, run (get_by_tag v) d n = (inl AttributeError, d))
  /\ run (SqliteRepo.get_by_tag "mthfr") store_tagged 0
     = (inr (SqliteRepo.by_tag_rows store_tagged "mthfr"), store_tagged)
  /\ map Knowledge.id (SqliteRepo.by_tag_rows store_tagged "mthfr") = [2; 1]
  /\ map Knowledge.status (SqliteRepo.by_tag_rows store_tagged "mthfr") = [DEPRECATED; ACTIVE].
Proof.
  split; [intros d n v; reflexivity|].
  split; [reflexivity|]. split; vm_compute; reflexivity.
Qed.

(** C8: the session repository's [get_linked_to] raises [AttributeError]
    whatever the store holds and whatever the link.  The sqlite
    repository's [get_by_link] returns entry 1 for its link of type SNP
    to row 50, and nothing for the same target id under another type. *)
Theorem get_linked_to_exact :
  (forall d n lt tid, run (get_linked_to lt tid) d n = (inl AttributeError, d))
  /\ run (SqliteRepo.get_by_link SNP 50) store_tagged 0
     = (inr (SqliteRepo.by_link_rows store_tagged SNP 50), store_tagged)
  /\ map Knowledge.id (SqliteRepo.by_link_rows store_tagged SNP 50) = [1]
  /\ SqliteRepo.by_link_rows store_tagged BIOMARKER 50 = [].
Proof.
  split; [intros d n lt tid; reflexivity|].
  split; [reflexivity|]. split; vm_compute; reflexivity.
Qed.

(** C9: with the sqlite repository, when [old_id] names an entry, a
    [supersede] that commits keeps that entry in place: it is still found
    under [old_id], with status Deprecated and every other field as
    before; the rows [old_id] are the old ones with their status set to
    Deprecated, as many as before; every other row is kept, and the only
    row added is the new entry.  (The session repository's [supersede]
    raises [NoInspectionAvailable] before writing.) *)
Theorem supersede_old_in_place (d d' : Store) (n : nat) (old_id : UUID) (o k nk : Knowledge.t)
    (tags : list KnowledgeTag.t) (links : list KnowledgeLink.t) :
  find_knowledge d.(knowledge) old_id = Some o ->
  run (SqliteRepo.supersede old_id k) d n = (inr nk, d') ->
  (exists o',
    find_knowledge d'.(knowledge) old_id = Some o'
    /\ o'.(Knowledge.status) = DEPRECATED
    /\ o'.(Knowledge.id) = o.(Knowledge.id)
    /\ o'.(Knowledge.type_) = o.(Knowledge.type_)
    /\ o'.(Knowledge.summary) = o.(Knowledge.summary)
    /\ o'.(Knowledge.content) = o.(Knowledge.content)
    /\ o'.(Knowledge.confidence) = o.(Knowledge.confidence)
    /\ o'.(Knowledge.supersedes_id) = o.(Knowledge.supersedes_id)
    /\ o'.(Knowledge.supersession_reason) = o.(Knowledge.supersession_reason)
    /\ o'.(Knowledge.created_at) = o.(Knowledge.created_at))
  /\ filter (fun r => Nat.eqb r.(Knowledge.id) old_id) d'.(knowledge)
     = map (fun r => Knowledge.set_status r DEPRECATED)
           (filter (fun r => Nat.eqb r.(Knowledge.id) old_id) d.(knowledge))
  /\ length (filter (fun r => Nat.eqb r.(Knowledge.id) old_id) d'.(knowledge))
     = length (filter (fun r => Nat.eqb r.(Knowledge.id) old_id) d.(knowledge))
  /\ filter (fun r => negb (Nat.eqb r.(Knowledge.id) old_id)) d'.(knowledge)
     = filter (fun r => negb (Nat.eqb r.(Knowledge.id) old_id)) d.(knowledge) ++ [nk]
  /\ run (supersede old_id k tags links) d n = (inl NoInspectionAvailable, d).
Proof.
  intros Hf H.
  destruct (sqlite_supersede_found _ _ _ _ _ _ _ Hf H) as [Enk [Hfresh [Hne ->]]].
  assert (Hold : Nat.eqb nk.(Knowledge.id) old_id = false)
    by (rewrite Enk; cbn; now apply Nat.eqb_neq).
  assert (Hold_filter :
            filter (fun r => Nat.eqb r.(Knowledge.id) old_id)
                   (SqliteRepo.deprecate_rows old_id d.(knowledge) ++ [nk])
            = map (fun r => Knowledge.set_status r DEPRECATED)
                  (filter (fun r => Nat.eqb r.(Knowledge.id) old_id) d.(knowledge))).
  { rewrite filter_app, filter_deprecate_rows_old. cbn [filter]. rewrite Hold.
    apply app_nil_r. }
  cbn [knowledge]. split; [|split; [|split; [|split]]].
  - exists (Knowledge.set_status o DEPRECATED).
    rewrite find_knowledge_app, find_deprecate_rows, Hf. cbn.
    repeat split.
  - exact Hold_filter.
  - rewrite Hold_filter. apply length_map.
  - rewrite filter_app, filter_deprecate_rows_other. cbn [filter]. rewrite Hold. reflexivity.
  - apply supersede_run.
Qed.

(** C10: when the scripts' [cmd_supersede] goes through on a store whose
    foreign keys hold, the new entry gets one new tag row per given tag
    and one new link row per given link: each row is owned by the new
    entry, has a fresh id from [uuid4], and copies only the tag value
    (resp. link type and target id) of the object passed in, whose own id
    and owner are ignored.  The new entry's tags and links, as the sqlite
    repository returns them, are exactly these.  (The session
    repository's [supersede] raises [NoInspectionAvailable] before
    writing.) *)
Theorem supersede_copies_tags_links (d d' : Store) (n : nat) (old_id : UUID) (k nk : Knowledge.t)
    (tags : list KnowledgeTag.t) (links : list KnowledgeLink.t)
    (printed : list KnowledgeTag.t) (new_links : list KnowledgeLink.t) :
  foreign_keys_hold d ->
  run (Scripts.cmd_supersede old_id k tags links) d n = (inr (nk, printed, new_links), d') ->
  nk.(Knowledge.id) = k.(Knowledge.id)
  /\ d'.(knowledge_tags) = d.(knowledge_tags) ++ fresh_tags n k.(Knowledge.id) (map tag_value tags)
  /\ d'.(knowledge_links)
     = d.(knowledge_links) ++ fresh_links (n + length tags) k.(Knowledge.id) (map link_target links)
  /\ Forall (fun t => t.(KnowledgeTag.knowledge_id) = k.(Knowledge.id))
            (fresh_tags n k.(Knowledge.id) (map tag_value tags))
  /\ Forall (fun l => l.(KnowledgeLink.knowledge_id) = k.(Knowledge.id))
            (fresh_links (n + length tags) k.(Knowledge.id) (map link_target links))
  /\ map KnowledgeTag.id (fresh_tags n k.(Knowledge.id) (map tag_value tags))
     = seq n (length tags)
  /\ map KnowledgeLink.id (fresh_links (n + length tags) k.(Knowledge.id) (map link_target links))
     = seq (n + length tags) (length links)
  /\ run (SqliteRepo.get_tags_by_knowledge k.(Knowledge.id)) d' n
     = (inr (tags_for_knowledge d' k.(Knowledge.id)), d')
  /\ Permutation (map tag_value (tags_for_knowledge d' k.(Knowledge.id))) (map tag_value tags)
  /\ run (SqliteRepo.get_links_by_knowledge k.(Knowledge.id)) d' n
     = (inr (links_for_knowledge d' k.(Knowledge.id)), d')
  /\ Permutation (map link_target (links_for_knowledge d' k.(Knowledge.id)))
                 (map link_target links)
  /\ (forall tags' links',
        map tag_value tags' = map tag_value tags ->
        map link_target links' = map link_target links ->
        run (Scripts.cmd_supersede old_id k tags' links') d n = (inr (nk, printed, new_links), d'))
  /\ run (supersede old_id k tags links) d n = (inl NoInspectionAvailable, d).
Proof.
  intros [Hft Hfl] H.
  assert (Hindep : forall tags' links',
             map tag_value tags' = map tag_value tags ->
             map link_target links' = map link_target links ->
             run (Scripts.cmd_supersede old_id k tags' links') d n
             = (inr (nk, printed, new_links), d')).
  { intros tags' links' Et El. rewrite <- H. unfold run.
    rewrite (cmd_supersede_values _ _ _ _ _ _ _ Et El). reflexivity. }
  destruct (cmd_supersede_inr _ _ _ _ _ _ _ _ _ _ H)
    as (o & Hf & Hm & Enk & Hfresh & Enl & Ep & ->).
  subst new_links printed.
  assert (Hnot : forall i, In i (knowledge_ids d) -> Nat.eqb i k.(Knowledge.id) = false).
  { intros i Hi. apply Nat.eqb_neq. intros ->. contradiction. }
  cbn [knowledge_tags knowledge_links].
  split; [now rewrite Enk|].
  split; [reflexivity|]. split; [reflexivity|].
  split; [apply fresh_tags_owner|]. split; [apply fresh_links_owner|].
  split; [rewrite fresh_tags_ids; now rewrite length_map|].
  split; [rewrite fresh_links_ids; now rewrite length_map|].
  split; [reflexivity|]. split.
  - unfold tags_for_knowledge. cbn [knowledge_tags].
    rewrite filter_app, (filter_none _ (knowledge_tags d)).
    + rewrite (filter_every _ (fresh_tags _ _ _)).
      * cbn [app]. rewrite <- map_tag_value_fresh with (n := n) (kid := k.(Knowledge.id)).
        apply Permutation_map, sort_by_perm.
      * eapply Forall_impl; [|apply fresh_tags_owner]. intros t Ht. cbn in Ht.
        rewrite Ht. apply Nat.eqb_refl.
    + eapply Forall_impl; [|exact Hft]. intros t Ht. now apply Hnot.
  - split; [reflexivity|]. split.
    + unfold links_for_knowledge. cbn [knowledge_links].
      rewrite filter_app, (filter_none _ (knowledge_links d)).
      * rewrite (filter_every _ (fresh_links _ _ _)).
        -- cbn [app].
           rewrite <- map_link_target_fresh with (n := n + length tags) (kid := k.(Knowledge.id)).
           apply Permutation_map, sort_by_perm.
        -- eapply Forall_impl; [|apply fresh_links_owner]. intros l Hl. cbn in Hl.
           rewrite Hl. apply Nat.eqb_refl.
      * eapply Forall_impl; [|exact Hfl]. intros l Hl. now apply Hnot.
    + split; [exact Hindep | apply supersede_run].
Qed.



(** ** Witnesses of the claims *)

Ltac concrete_prop :=
  vm_compute; repeat split; repeat constructor; simpl; intuition discriminate.

Lemma store_tagged_wf : store_wf store_tagged.
Proof. unfold store_wf, primary_key_holds, foreign_keys_hold, supersedes_ok; concrete_prop. Qed.



Lemma supersede_missing_old_witness :
  find_knowledge store_tagged.(knowledge) 9 = None
  /\ run (Scripts.cmd_supersede 9 new_fact [] []) store_tagged 0
     = (inl (KnowledgeNotFound 9), store_tagged)
  /\ run (SqliteRepo.supersede 9 new_fact) store_tagged 0 = (inl IntegrityError, store_tagged).
Proof.
  assert (H1 : find_knowledge store_tagged.(knowledge) 9 = None) by (vm_compute; reflexivity).
  assert (H2 : 9 <> new_fact.(Knowledge.id)) by (vm_compute; lia).
  split; [exact H1|].
  destruct (supersede_missing_old store_tagged 0 9 new_fact [] []) as [_ H].
  destruct (H H1) as [Hc [Hs _]]. exact (conj Hc (Hs H2)).
Defined.

Lemma supersede_old_in_place_witness :
  find_knowledge store_ABC.(knowledge) 2 = Some (sample_fact 2 ACTIVE 2)
  /\ run (SqliteRepo.supersede 2 (sample_fact 4 ACTIVE 4)) store_ABC 0
     = (inr (Knowledge.set_supersedes_id (sample_fact 4 ACTIVE 4) (Some 2)), store_ABC_B2)
  /\ filter (fun r => Nat.eqb r.(Knowledge.id) 2) store_ABC_B2.(knowledge)
     = [Knowledge.set_status (sample_fact 2 ACTIVE 2) DEPRECATED]
  /\ filter (fun r => negb (Nat.eqb r.(Knowledge.id) 2)) store_ABC_B2.(knowledge)
     = filter (fun r => negb (Nat.eqb r.(Knowledge.id) 2)) store_ABC.(knowledge)
       ++ [Knowledge.set_supersedes_id (sample_fact 4 ACTIVE 4) (Some 2)].
Proof.
  assert (H1 : find_knowledge store_ABC.(knowledge) 2 = Some (sample_fact 2 ACTIVE 2))
    by (vm_compute; reflexivity).
  assert (H2 : run (SqliteRepo.supersede 2 (sample_fact 4 ACTIVE 4)) store_ABC 0
               = (inr (Knowledge.set_supersedes_id (sample_fact 4 ACTIVE 4) (Some 2)),
                  store_ABC_B2))
    by (vm_compute; reflexivity).
  split; [exact H1|]. split; [exact H2|].
  destruct (supersede_old_in_place store_ABC store_ABC_B2 0 2 (sample_fact 2 ACTIVE 2)
              (sample_fact 4 ACTIVE 4) _ [] [] H1 H2) as (_ & Hold & _ & Hother & _).
  split; [|exact Hother].
  rewrite Hold. vm_compute. reflexivity.
Defined.

Lemma supersede_copies_tags_links_witness :
  let d' := after (Scripts.cmd_supersede 1 new_fact [tag_of_99] [link_of_99]) store_tagged in
  foreign_keys_hold store_tagged
  /\ run (Scripts.cmd_supersede 1 new_fact [tag_of_99] [link_of_99]) store_tagged 0
     = (inr (Knowledge.set_supersedes_id new_fact (Some 1), [KnowledgeTag.mk 2 5 "folate"],
             [KnowledgeLink.mk 1 5 SNP 50]), d')
  /\ d'.(knowledge_tags) = store_tagged.(knowledge_tags) ++ [KnowledgeTag.mk 0 5 "folate"]
  /\ Permutation (map tag_value (tags_for_knowledge d' 5)) ["folate"%string]
  /\ Permutation (map link_target (links_for_knowledge d' 5)) [(SNP, 50)].
Proof.
  intros d'.
  assert (Hfk : foreign_keys_hold store_tagged) by (unfold foreign_keys_hold; concrete_prop).
  assert (H : run (Scripts.cmd_supersede 1 new_fact [tag_of_99] [link_of_99]) store_tagged 0
              = (inr (Knowledge.set_supersedes_id new_fact (Some 1),
                      [KnowledgeTag.mk 2 5 "folate"], [KnowledgeLink.mk 1 5 SNP 50]), d'))
    by (vm_compute; reflexivity).
  split; [exact Hfk|]. split; [exact H|].
  destruct (supersede_copies_tags_links store_tagged d' 0 1 new_fact _ [tag_of_99] [link_of_99]
              _ _ Hfk H) as (_ & Ht & _ & _ & _ & _ & _ & _ & Pt & _ & Pl & _).
  split; [exact Ht|]. split; [exact Pt | exact Pl].
Defined.


(** * Further properties of the code *)

(** ** The sqlite repository's reads *)

(** The sqlite [get_tags_by_knowledge] returns the tags of the entry,
    each as many times as it is stored and no other, in ascending order
    of the tag value. *)
Theorem sqlite_get_tags_by_knowledge_sorted (d : Store) (n : nat) (kid : UUID) :
  run (SqliteRepo.get_tags_by_knowledge kid) d n = (inr (tags_for_knowledge d kid), d)
  /\ Sorted (fun a b => String.leb a.(KnowledgeTag.tag) b.(KnowledgeTag.tag) = true)
            (tags_for_knowledge d kid)
  /\ Permutation (tags_for_knowledge d kid)
       (filter (fun t => Nat.eqb t.(KnowledgeTag.knowledge_id) kid) d.(knowledge_tags)).
Proof.
  split; [reflexivity|]. split.
  - apply sort_by_sorted. intros a b. apply String.leb_total.
  - apply sort_by_perm.
Qed.

(** The sqlite [get_links_by_knowledge] returns the links of the entry,
    each as many times as it is stored and no other, in ascending order
    of the link type's value. *)
Theorem sqlite_get_links_by_knowledge_sorted (d : Store) (n : nat) (kid : UUID) :
  run (SqliteRepo.get_links_by_knowledge kid) d n = (inr (links_for_knowledge d kid), d)
  /\ Sorted (fun a b => String.leb (link_type_value a.(KnowledgeLink.link_type))
                                   (link_type_value b.(KnowledgeLink.link_type)) = true)
            (links_for_knowledge d kid)
  /\ Permutation (links_for_knowledge d kid)
       (filter (fun l => Nat.eqb l.(KnowledgeLink.knowledge_id) kid) d.(knowledge_links)).
Proof.
  split; [reflexivity|]. split.
  - apply sort_by_sorted. intros a b. apply String.leb_total.
  - apply sort_by_perm.
Qed.

(** The sqlite [get_active] returns exactly the active entries, newest
    first. *)
Theorem sqlite_get_active_sorted (d : Store) (n : nat) :
  run SqliteRepo.get_active d n = (inr (get_active_rows d), d)
  /\ Sorted (fun a b => b.(Knowledge.created_at) <= a.(Knowledge.created_at))
            (get_active_rows d)
  /\ Permutation (get_active_rows d) (active_rows d).
Proof.
  split; [reflexivity|]. split.
  - eapply Sorted_weaken; [|apply sort_by_sorted].
    + intros a b H. now apply Nat.leb_le.
    + intros a b. apply nat_leb_total.
  - apply sort_by_perm.
Qed.

(** ** The sqlite repository's [supersede] *)

(** The sqlite repository's [supersede]: when it commits, the new id was
    free and [old_id] named an entry or is the new id itself (the foreign
    key on [supersedes_id] is checked with the new row in the table); the
    entry returned is the given one with [supersedes_id = old_id] and the
    status the caller gave; it is appended to the table, and every row
    [old_id] is then marked deprecated (the new row too, when it is
    [old_id]); no tag or link is written.  When the new id is taken, or
    [old_id] names no entry and is not the new id, it raises
    [IntegrityError] and the store is as before. *)
Theorem sqlite_supersede_outcome (d d' : Store) (n : nat) (old_id : UUID) (k nk : Knowledge.t) :
  (run (SqliteRepo.supersede old_id k) d n = (inr nk, d') ->
   ~ In k.(Knowledge.id) (knowledge_ids d)
   /\ (In old_id (knowledge_ids d) \/ old_id = k.(Knowledge.id))
   /\ nk = Knowledge.set_supersedes_id k (Some old_id)
   /\ d' = mkStore (SqliteRepo.deprecate_rows old_id (d.(knowledge) ++ [nk]))
                   d.(knowledge_tags) d.(knowledge_links) d.(other_rows))
  /\ (In k.(Knowledge.id) (knowledge_ids d)
      \/ (~ In old_id (knowledge_ids d) /\ old_id <> k.(Knowledge.id)) ->
      run (SqliteRepo.supersede old_id k) d n = (inl IntegrityError, d)).
Proof.
  split.
  - intros H. destruct (sqlite_supersede_inr _ _ _ _ _ _ H) as (Enk & Hfresh & Hold & Ed).
    split; [exact Hfresh|]. split; [exact Hold|]. split; [exact Enk | exact Ed].
  - intros Hc. unfold run. rewrite sqlite_supersede_session.
    destruct Hc as [Hk | [Ho Hs]].
    + rewrite (proj2 (existsb_eqb_in _ _) Hk). reflexivity.
    + rewrite (proj2 (existsb_eqb_notin _ _) Ho), (proj2 (Nat.eqb_neq _ _) Hs).
      destruct (existsb (Nat.eqb (Knowledge.id k)) (knowledge_ids d)); reflexivity.
Qed.

(** ** The commands of the scripts *)

(** [cmd_add] is not atomic: when the links exist and the entry can be
    inserted but a tag insert fails, the command raises [IntegrityError]
    and the entry stays in the store, without all its tags. *)
Theorem cmd_add_not_atomic (d : Store) (n : nat) (k : Knowledge.t)
    (tags : list KnowledgeTag.t) (links : list KnowledgeLink.t) (d1 : Store) :
  first_missing_target d links = None ->
  apply_op d (InsertKnowledge k) = Some d1 ->
  apply_ops d1 (map InsertTag tags) = None ->
  fst (run (Scripts.cmd_add k tags links) d n) = inl IntegrityError
  /\ find_knowledge (snd (run (Scripts.cmd_add k tags links) d n)).(knowledge) k.(Knowledge.id)
     = Some k.
Proof.
  intros Hm E1 E2.
  assert (Hk : find_knowledge d1.(knowledge) k.(Knowledge.id) = Some k).
  { apply apply_insert_knowledge in E1 as [-> Hfresh]. cbn [knowledge]. rewrite find_knowledge_app.
    assert (find_knowledge (knowledge d) (Knowledge.id k) = None) as ->
      by now apply find_knowledge_none.
    unfold find_knowledge; cbn. now rewrite Nat.eqb_refl. }
  assert (Hadd : exists d'', run (Scripts.cmd_add k tags links) d n = (inl IntegrityError, d'')
                             /\ d''.(knowledge) = d1.(knowledge)).
  { rewrite cmd_add_run, Hm, E1, bind_step.
    pose proof (for_each_insert_tags tags (mkSession d1 [] n)) as Ht; cbn [db pending next_uuid] in Ht.
    rewrite E2 in Ht. destruct Ht as [d'' [-> Hd'']].
    exists d''. split; [reflexivity | exact Hd'']. }
  destruct Hadd as [d'' [Hr Hd'']]. rewrite Hr. cbn [fst snd]. rewrite Hd''.
  split; [reflexivity | exact Hk].
Qed.

(** The scripts' [cmd_supersede] with [--json], when it goes through:
    the new entry is stored with [supersedes_id = old_id], the old rows
    are deprecated, and the links printed are the rows stored.  The tags
    printed carry the given tag values but ids of their own, drawn from
    [uuid4] after those of the stored rows: when [uuid4] had not handed
    out the ids of the tags stored before, none of the printed ids is the
    id of a stored tag row. *)
Theorem scripts_cmd_supersede_output (d d' : Store) (n : nat) (old_id : UUID) (k nk : Knowledge.t)
    (tags : list KnowledgeTag.t) (links : list KnowledgeLink.t)
    (printed : list KnowledgeTag.t) (new_links : list KnowledgeLink.t) :
  Forall (fun t => t.(KnowledgeTag.id) < n) d.(knowledge_tags) ->
  run (Scripts.cmd_supersede old_id k tags links) d n = (inr (nk, printed, new_links), d') ->
  nk = Knowledge.set_supersedes_id k (Some old_id)
  /\ d'.(knowledge) = SqliteRepo.deprecate_rows old_id d.(knowledge) ++ [nk]
  /\ d'.(knowledge_links) = d.(knowledge_links) ++ new_links
  /\ new_links = fresh_links (n + length tags) k.(Knowledge.id) (map link_target links)
  /\ map tag_value printed = map tag_value tags
  /\ Forall (fun t => ~ In t.(KnowledgeTag.id) (map KnowledgeTag.id d'.(knowledge_tags))) printed.
Proof.
  intros Htags H.
  destruct (cmd_supersede_inr _ _ _ _ _ _ _ _ _ _ H) as (o & _ & _ & Enk & _ & Enl & Ep & ->).
  cbn [knowledge knowledge_links knowledge_tags].
  split; [exact Enk|]. split; [reflexivity|]. split; [reflexivity|]. split; [exact Enl|].
  split; [rewrite Ep; apply map_tag_value_fresh|].
  apply Forall_forall. intros t Ht Hin'.
  rewrite map_app in Hin'. rewrite Ep in Ht.
  apply in_map with (f := KnowledgeTag.id) in Ht.
  rewrite fresh_tags_ids, length_map in Ht. apply in_seq in Ht.
  apply in_app_or in Hin' as [Hin' | Hin'].
  - apply in_map_iff in Hin' as [t' [Et' Ht']]. rewrite Forall_forall in Htags.
    specialize (Htags t' Ht'). lia.
  - rewrite fresh_tags_ids, length_map in Hin'. apply in_seq in Hin'. lia.
Qed.

(** ** The schema's constraints are kept *)

Definition op_ok (d : Store) (o : Op) : Prop :=
  match o with UpdateKnowledge k => supersedes_ok (knowledge_ids d) k | _ => True end.

Lemma NoDup_snoc {A} (l : list A) (x : A) : NoDup l -> ~ In x l -> NoDup (l ++ [x]).
Proof.
  intros Hl Hx. apply NoDup_app; [exact Hl | repeat constructor; auto|].
  intros a Ha [<- | []]. contradiction.
Qed.

Lemma supersedes_ok_incl (ids ids' : list UUID) (k : Knowledge.t) :
  incl ids ids' -> supersedes_ok ids k -> supersedes_ok ids' k.
Proof. unfold supersedes_ok. destruct (Knowledge.supersedes_id k); auto. Qed.

Lemma Forall_In_incl {A} (f : A -> UUID) (ids ids' : list UUID) (l : list A) :
  incl ids ids' -> Forall (fun x => In (f x) ids) l -> Forall (fun x => In (f x) ids') l.
Proof. intros Hi. apply Forall_impl. intros a Ha. now apply Hi. Qed.

Lemma op_ok_incl (d d' : Store) (o : Op) :
  incl (knowledge_ids d) (knowledge_ids d') -> op_ok d o -> op_ok d' o.
Proof. destruct o; cbn; auto. apply supersedes_ok_incl. Qed.

Lemma update_row_id (k r : Knowledge.t) :
  (update_row k r).(Knowledge.id) = r.(Knowledge.id).
Proof.
  unfold update_row. destruct (Nat.eqb (Knowledge.id r) (Knowledge.id k)) eqn:E; [|reflexivity].
  apply Nat.eqb_eq in E. now symmetry.
Qed.

Lemma map_id_update_rows (k : Knowledge.t) (rows : list Knowledge.t) :
  map Knowledge.id (map (update_row k) rows) = map Knowledge.id rows.
Proof.
  rewrite map_map. apply map_ext. apply update_row_id.
Qed.

(** One statement that goes through keeps every constraint, and keeps
    every entry id. *)
Lemma apply_op_wf (d d' : Store) (o : Op) :
  store_wf d -> op_ok d o -> apply_op d o = Some d' ->
  store_wf d' /\ incl (knowledge_ids d) (knowledge_ids d').
Proof.
  intros (Hpk & Ht & Hl & [Hft Hfl] & Hs) Hok.
  destruct o as [k|k|t|l]; cbn [apply_op].
  - destruct (existsb (Nat.eqb (Knowledge.id k)) (knowledge_ids d)) eqn:Ek; [discriminate|].
    apply existsb_eqb_notin in Ek. intros H.
    assert (Hsk : supersedes_ok (knowledge_ids d ++ [Knowledge.id k]) k
                  /\ d' = mkStore (knowledge d ++ [k]) (knowledge_tags d)
                                  (knowledge_links d) (other_rows d)).
    { unfold supersedes_ok. destruct (Knowledge.supersedes_id k) as [p|].
      - destruct (existsb (Nat.eqb p) (knowledge_ids d ++ [Knowledge.id k])) eqn:Epi;
          [|discriminate].
        injection H as <-. split; [now apply existsb_eqb_in | reflexivity].
      - injection H as <-. split; [exact I | reflexivity]. }
    destruct Hsk as [Hsk ->].
    assert (Hids : knowledge_ids (mkStore (knowledge d ++ [k]) (knowledge_tags d)
                                          (knowledge_links d) (other_rows d))
                   = knowledge_ids d ++ [Knowledge.id k])
      by (unfold knowledge_ids; cbn; apply map_app).
    assert (Hinc : incl (knowledge_ids d)
                     (knowledge_ids (mkStore (knowledge d ++ [k]) (knowledge_tags d)
                                             (knowledge_links d) (other_rows d))))
      by (rewrite Hids; apply incl_appl, incl_refl).
    split; [|exact Hinc].
    split; [unfold primary_key_holds; rewrite Hids; now apply NoDup_snoc|].
    split; [exact Ht|]. split; [exact Hl|].
    split; [split; [exact (Forall_In_incl _ _ _ _ Hinc Hft)
                   | exact (Forall_In_incl _ _ _ _ Hinc Hfl)]|].
    cbn [knowledge]. apply Forall_app. split.
    + eapply Forall_impl; [|exact Hs]. intros a. apply supersedes_ok_incl, Hinc.
    + constructor; [|constructor]. rewrite Hids. exact Hsk.
  - intros H; injection H as <-.
    assert (Hids : knowledge_ids (mkStore (map (update_row k) (knowledge d)) (knowledge_tags d)
                                          (knowledge_links d) (other_rows d)) = knowledge_ids d)
      by apply map_id_update_rows.
    split; [|rewrite Hids; apply incl_refl].
    unfold store_wf, primary_key_holds, foreign_keys_hold. rewrite Hids.
    split; [exact Hpk|]. split; [exact Ht|]. split; [exact Hl|]. split; [split; assumption|].
    cbn. apply Forall_forall. intros r Hr. apply in_map_iff in Hr as [r0 [<- Hr0]].
    unfold update_row. destruct (Nat.eqb (Knowledge.id r0) (Knowledge.id k)); [exact Hok|].
    rewrite Forall_forall in Hs. now apply Hs.
  - destruct (existsb (Nat.eqb (KnowledgeTag.id t)) (map KnowledgeTag.id (knowledge_tags d)))
      eqn:Et; [discriminate|].
    destruct (existsb (Nat.eqb (KnowledgeTag.knowledge_id t)) (knowledge_ids d)) eqn:Eo;
      [|discriminate].
    intros H; injection H as <-. split; [|apply incl_refl].
    apply existsb_eqb_notin in Et. apply existsb_eqb_in in Eo.
    split; [exact Hpk|]. split; [cbn; rewrite map_app; now apply NoDup_snoc|].
    split; [exact Hl|]. split; [split; [|exact Hfl]|exact Hs].
    cbn. apply Forall_app. split; [exact Hft | now constructor].
  - destruct (existsb (Nat.eqb (KnowledgeLink.id l)) (map KnowledgeLink.id (knowledge_links d)))
      eqn:Et; [discriminate|].
    destruct (existsb (Nat.eqb (KnowledgeLink.knowledge_id l)) (knowledge_ids d)) eqn:Eo;
      [|discriminate].
    intros H; injection H as <-. split; [|apply incl_refl].
    apply existsb_eqb_notin in Et. apply existsb_eqb_in in Eo.
    split; [exact Hpk|]. split; [exact Ht|]. split; [cbn; rewrite map_app; now apply NoDup_snoc|].
    split; [split; [exact Hft|]|exact Hs].
    cbn. apply Forall_app. split; [exact Hfl | now constructor].
Qed.

(** A computation of the session monad that keeps the constraints. *)
Definition keeps_wf {A} (m : M A) : Prop :=
  forall s, store_wf s.(db) -> store_wf (snd (m s)).(db).

Lemma keeps_wf_ret {A} (a : A) : keeps_wf (ret a).
Proof. intros s H. exact H. Qed.

Lemma keeps_wf_raise {A} (e : Error) : keeps_wf (@raise A e).
Proof. intros s H. exact H. Qed.

Lemma keeps_wf_query {A} (f : Store -> A) : keeps_wf (query f).
Proof. intros s H. exact H. Qed.

Lemma keeps_wf_uuid4 : keeps_wf uuid4.
Proof. intros s H. exact H. Qed.

Lemma keeps_wf_bind {A B} (m : M A) (f : A -> M B) :
  keeps_wf m -> (forall a, keeps_wf (f a)) -> keeps_wf (bind m f).
Proof.
  intros Hm Hf s Hs. unfold bind. specialize (Hm s Hs).
  destruct (m s) as [[e|a] s']; [exact Hm | now apply Hf].
Qed.

Lemma keeps_wf_for_each {A} (f : A -> M unit) (l : list A) :
  (forall x, keeps_wf (f x)) -> keeps_wf (for_each f l).
Proof.
  intros Hf. induction l as [|x l IH]; cbn; [apply keeps_wf_ret|].
  apply keeps_wf_bind; [apply Hf | intros _; exact IH].
Qed.

Lemma keeps_wf_map_m {A B} (f : A -> M B) (l : list A) :
  (forall x, keeps_wf (f x)) -> keeps_wf (Scripts.map_m f l).
Proof.
  intros Hf. induction l as [|x l IH]; cbn; [apply keeps_wf_ret|].
  apply keeps_wf_bind; [apply Hf | intros y].
  apply keeps_wf_bind; [exact IH | intros ys; apply keeps_wf_ret].
Qed.

Lemma keeps_wf_execute (o : Op) :
  (forall d, op_ok d o) -> keeps_wf (SqliteRepo.execute o).
Proof.
  intros Hok s Hs. unfold SqliteRepo.execute.
  destruct (apply_op (db s) o) as [d|] eqn:E; [|exact Hs].
  exact (proj1 (apply_op_wf _ _ _ Hs (Hok _) E)).
Qed.

Lemma keeps_wf_update_status (old_id : UUID) : keeps_wf (SqliteRepo.update_status old_id).
Proof.
  intros [d p m] (Hpk & Ht & Hl & [Hft Hfl] & Hs). cbn [db snd SqliteRepo.update_status].
  assert (Hids : map Knowledge.id (SqliteRepo.deprecate_rows old_id (knowledge d))
                 = knowledge_ids d).
  { unfold SqliteRepo.deprecate_rows, knowledge_ids. rewrite map_map. apply map_ext.
    intros r. now destruct (Nat.eqb (Knowledge.id r) old_id). }
  unfold store_wf, primary_key_holds, foreign_keys_hold, knowledge_ids at 1 2 3 4.
  cbn [knowledge knowledge_tags knowledge_links]. rewrite Hids.
  split; [exact Hpk|]. split; [exact Ht|]. split; [exact Hl|]. split; [split; assumption|].
  unfold SqliteRepo.deprecate_rows. apply Forall_map. eapply Forall_impl; [|exact Hs].
  intros r Hr. now destruct (Nat.eqb (Knowledge.id r) old_id).
Qed.

Lemma keeps_wf_insert_knowledge (k : Knowledge.t) : keeps_wf (SqliteRepo.insert_knowledge k).
Proof.
  apply keeps_wf_bind; [apply keeps_wf_execute; intros; exact I | intros; apply keeps_wf_ret].
Qed.

Lemma keeps_wf_insert_tag (t : KnowledgeTag.t) : keeps_wf (SqliteRepo.insert_tag t).
Proof.
  apply keeps_wf_bind; [apply keeps_wf_execute; intros; exact I | intros; apply keeps_wf_ret].
Qed.

Lemma keeps_wf_insert_link (l : KnowledgeLink.t) : keeps_wf (SqliteRepo.insert_link l).
Proof.
  apply keeps_wf_bind; [apply keeps_wf_execute; intros; exact I | intros; apply keeps_wf_ret].
Qed.

Lemma keeps_wf_check_link (l : KnowledgeLink.t) : keeps_wf (Scripts.check_link l).
Proof.
  apply keeps_wf_bind; [apply keeps_wf_query | intros [|]; [apply keeps_wf_ret | apply keeps_wf_raise]].
Qed.

Lemma keeps_wf_sqlite_supersede (old_id : UUID) (k : Knowledge.t) :
  keeps_wf (SqliteRepo.supersede old_id k).
Proof.
  apply keeps_wf_bind; [apply keeps_wf_execute; intros; exact I | intros _].
  apply keeps_wf_bind; [apply keeps_wf_update_status | intros _; apply keeps_wf_ret].
Qed.

Create HintDb keeps_wf.
#[local] Hint Resolve keeps_wf_ret keeps_wf_raise keeps_wf_query keeps_wf_uuid4
  keeps_wf_insert_knowledge keeps_wf_insert_tag keeps_wf_insert_link keeps_wf_check_link
  keeps_wf_sqlite_supersede keeps_wf_update_status : keeps_wf.

Ltac keeps_wf_step :=
  first [ solve [auto with keeps_wf]
        | apply keeps_wf_for_each; intros ?
        | apply keeps_wf_map_m; intros ?
        | apply keeps_wf_bind; [|intros ?] ].

(** Every command of the scripts over the sqlite repository ([cmd_add],
    [cmd_supersede]) and the repository's [supersede], whether it succeeds
    or fails part way, leaves a store that meets the schema's constraints
    when the store met them before: each statement is checked by the
    database, and the UPDATE of [supersede] only changes a status. *)
Theorem sqlite_commands_keep_schema (d : Store) (n : nat) (old_id : UUID) (k : Knowledge.t)
    (tags : list KnowledgeTag.t) (links : list KnowledgeLink.t) :
  store_wf d ->
  store_wf (snd (run (Scripts.cmd_add k tags links) d n))
  /\ store_wf (snd (run (Scripts.cmd_supersede old_id k tags links) d n))
  /\ store_wf (snd (run (SqliteRepo.supersede old_id k) d n)).
Proof.
  intros Hwf.
  assert (Hrun : forall A (m : M A), keeps_wf m -> store_wf (snd (run m d n))).
  { intros A m Hm. unfold run. specialize (Hm (mkSession d [] n) Hwf).
    destruct (m (mkSession d [] n)); exact Hm. }
  split; [|split]; apply Hrun.
  - unfold Scripts.cmd_add. repeat keeps_wf_step.
  - unfold Scripts.cmd_supersede. apply keeps_wf_bind; [unfold SqliteRepo.get_by_id; auto with keeps_wf|].
    intros [o|]; [|auto with keeps_wf].
    repeat keeps_wf_step.
  - auto with keeps_wf.
Qed.

(** ** Round trip of [cmd_add] *)

(** After a [cmd_add] of the scripts that goes through on a store whose
    foreign keys hold, the sqlite [get_by_id] of the new id gives the entry
    back, and [get_tags_by_knowledge] and [get_links_by_knowledge] give
    exactly the given tags and links that name it as their owner (in the
    order of the query). *)
Theorem cmd_add_round_trip (d d' : Store) (n : nat) (k : Knowledge.t)
    (tags : list KnowledgeTag.t) (links : list KnowledgeLink.t) :
  foreign_keys_hold d ->
  run (Scripts.cmd_add k tags links) d n = (inr tt, d') ->
  run (SqliteRepo.get_by_id k.(Knowledge.id)) d' n = (inr (Some k), d')
  /\ run (SqliteRepo.get_tags_by_knowledge k.(Knowledge.id)) d' n
     = (inr (tags_for_knowledge d' k.(Knowledge.id)), d')
  /\ Permutation (tags_for_knowledge d' k.(Knowledge.id))
       (filter (fun t => Nat.eqb t.(KnowledgeTag.knowledge_id) k.(Knowledge.id)) tags)
  /\ run (SqliteRepo.get_links_by_knowledge k.(Knowledge.id)) d' n
     = (inr (links_for_knowledge d' k.(Knowledge.id)), d')
  /\ Permutation (links_for_knowledge d' k.(Knowledge.id))
       (filter (fun l => Nat.eqb l.(KnowledgeLink.knowledge_id) k.(Knowledge.id)) links).
Proof.
  intros [Hft Hfl]. rewrite cmd_add_run.
  destruct (first_missing_target d links); [discriminate|].
  destruct (apply_op d (InsertKnowledge k)) as [d1|] eqn:E1; [|discriminate].
  apply apply_insert_knowledge in E1 as [Ed1 Hfresh].
  rewrite bind_step.
  pose proof (for_each_insert_tags tags (mkSession d1 [] n)) as Ht;
    cbn [db pending next_uuid] in Ht.
  destruct (apply_ops d1 (map InsertTag tags)) as [d2|] eqn:E2.
  2: { destruct Ht as [d'' [-> _]]. intros H; cbv beta iota in H; discriminate H. }
  rewrite Ht. cbv beta iota.
  pose proof (for_each_insert_links links (mkSession d2 [] n)) as Hl;
    cbn [db pending next_uuid] in Hl.
  destruct (apply_ops d2 (map InsertLink links)) as [d3|] eqn:E3.
  2: { destruct Hl as [d'' [-> _]]. intros H; cbv beta iota in H; discriminate H. }
  rewrite Hl. intros H; injection H as <-. cbn [db].
  apply apply_insert_tags in E2. apply apply_insert_links in E3. subst d3 d2 d1.
  cbn [knowledge knowledge_tags knowledge_links other_rows].
  assert (Hnone : find_knowledge d.(knowledge) k.(Knowledge.id) = None)
    by now apply find_knowledge_none.
  split; [|split; [reflexivity|split; [|split; [reflexivity|]]]].
  - unfold SqliteRepo.get_by_id. rewrite run_query. cbn [knowledge].
    rewrite find_knowledge_app, Hnone.
    unfold find_knowledge; cbn. now rewrite Nat.eqb_refl.
  - unfold tags_for_knowledge. rewrite sort_by_perm. cbn [knowledge_tags].
    rewrite filter_app, (filter_none _ (knowledge_tags d)); [reflexivity|].
    eapply Forall_impl; [|exact Hft]. intros t Ht'. cbv beta in *.
    apply Nat.eqb_neq. intros E. rewrite E in Ht'. contradiction.
  - unfold links_for_knowledge. rewrite sort_by_perm. cbn [knowledge_links].
    rewrite filter_app, (filter_none _ (knowledge_links d)); [reflexivity|].
    eapply Forall_impl; [|exact Hfl]. intros l Hl'. cbv beta in *.
    apply Nat.eqb_neq. intros E. rewrite E in Hl'. contradiction.
Qed.

(** ** The sqlite repository's lookups by tag and by link *)

Lemma option_eqb_refl {A} (eqb : A -> A -> bool) (a : option A) :
  (forall x, eqb x x = true) -> SqliteRepo.option_eqb eqb a a = true.
Proof. intros H. destruct a; cbn; auto. Qed.

Lemma knowledge_eqb_refl (k : Knowledge.t) : SqliteRepo.knowledge_eqb k k = true.
Proof.
  destruct k as [i ty st su co cf sp re ca]. unfold SqliteRepo.knowledge_eqb,
    SqliteRepo.knowledge_type_eqb; cbn.
  rewrite !Nat.eqb_refl, !String.eqb_refl, Qeq_bool_refl.
  rewrite (option_eqb_refl Nat.eqb sp Nat.eqb_refl),
          (option_eqb_refl String.eqb re String.eqb_refl).
  destruct st; reflexivity.
Qed.

Lemma knowledge_eqb_id (a b : Knowledge.t) :
  SqliteRepo.knowledge_eqb a b = true -> a.(Knowledge.id) = b.(Knowledge.id).
Proof.
  unfold SqliteRepo.knowledge_eqb. intros H. repeat (apply andb_true_iff in H as [H ?]).
  now apply Nat.eqb_eq.
Qed.

(** [SELECT DISTINCT] over rows on which [eqb] is equality. *)
Lemma distinct_from_spec {A} (eqb : A -> A -> bool) (P : A -> Prop) (seen l : list A) :
  (forall x y, P x -> P y -> eqb x y = true <-> x = y) ->
  Forall P seen -> Forall P l ->
  (forall x, In x (SqliteRepo.distinct_from eqb seen l) <-> In x l /\ ~ In x seen)
  /\ NoDup (SqliteRepo.distinct_from eqb seen l).
Proof.
  intros Heq. revert seen; induction l as [|x l IH]; intros seen Hs Hl; cbn.
  - split; [tauto | constructor].
  - inversion Hl as [|? ? Px Hl']; subst.
    destruct (existsb (eqb x) seen) eqn:E.
    + apply existsb_exists in E as [y [Hy Exy]].
      rewrite Forall_forall in Hs.
      apply (Heq x y Px (Hs y Hy)) in Exy. subst y.
      destruct (IH seen (proj2 (Forall_forall _ _) Hs) Hl') as [Hin Hnd].
      split; [|exact Hnd]. intros z. rewrite Hin. split; [tauto|].
      intros [[<- | Hz] Hns]; [contradiction | auto].
    + assert (Hx : ~ In x seen).
      { intros Hx. assert (existsb (eqb x) seen = true); [|congruence].
        apply existsb_exists. exists x. split; [exact Hx|].
        rewrite Forall_forall in Hs. now apply (Heq x x Px Px). }
      destruct (IH (x :: seen) (Forall_cons _ Px Hs) Hl') as [Hin Hnd].
      split.
      * intros z. cbn. rewrite Hin. cbn. split.
        -- intros [<- | [Hz Hns]]; [auto | split; [auto | tauto]].
        -- intros [[<- | Hz] Hns]; [auto|].
           rewrite Forall_forall in Hl'. pose proof (Hl' z Hz) as Pz.
           destruct (eqb x z) eqn:Exz.
           ++ left. exact (proj1 (Heq x z Px Pz) Exz).
           ++ right. split; [exact Hz|]. intros [<- | H]; [|contradiction].
              rewrite (proj2 (Heq x x Px Px) eq_refl) in Exz. discriminate.
      * constructor; [|exact Hnd]. rewrite Hin. cbn. tauto.
Qed.

Lemma knowledge_eqb_pk (rows : list Knowledge.t) :
  NoDup (map Knowledge.id rows) ->
  forall x y, In x rows -> In y rows -> SqliteRepo.knowledge_eqb x y = true <-> x = y.
Proof.
  intros Hnd x y Hx Hy. split.
  - intros E. exact (pk_unique _ _ _ Hnd Hx Hy (knowledge_eqb_id _ _ E)).
  - intros <-. apply knowledge_eqb_refl.
Qed.

Lemma nodup_ids_incl (l rows : list Knowledge.t) :
  NoDup l -> incl l rows -> NoDup (map Knowledge.id rows) -> NoDup (map Knowledge.id l).
Proof.
  induction 1 as [|x l Hx Hnd IH]; intros Hinc Hrows; cbn; constructor.
  - intros Hin. apply in_map_iff in Hin as [y [Ey Hy]].
    assert (y = x) as <-.
    { apply (pk_unique rows); [exact Hrows | apply Hinc; now right | apply Hinc; now left | exact Ey]. }
    contradiction.
  - apply IH; [|exact Hrows]. intros z Hz. apply Hinc. now right.
Qed.

(** The rows of the join, one per matching pair. *)
Lemma join_in {B} (rows : list Knowledge.t) (xs : list B) (hit : Knowledge.t -> B -> bool)
    (x : Knowledge.t) :
  In x (flat_map (fun k => map (fun _ => k) (filter (hit k) xs)) rows)
  <-> In x rows /\ exists b, In b xs /\ hit x b = true.
Proof.
  rewrite in_flat_map. split.
  - intros [k [Hk Hx]]. apply in_map_iff in Hx as [b [<- Hb]].
    apply filter_In in Hb as [Hb Hh]. split; [exact Hk|]. now exists b.
  - intros [Hx [b [Hb Hh]]]. exists x. split; [exact Hx|].
    apply in_map_iff. exists b. split; [reflexivity|]. now apply filter_In.
Qed.

(** What [SELECT DISTINCT] over a join of the knowledge table returns,
    ordered by [created_at DESC]: each entry once, exactly the joined
    ones, newest first. *)
Lemma distinct_join_sorted {B} (rows : list Knowledge.t) (xs : list B)
    (hit : Knowledge.t -> B -> bool) :
  NoDup (map Knowledge.id rows) ->
  let r := sort_by SqliteRepo.by_created_desc
             (SqliteRepo.distinct_from SqliteRepo.knowledge_eqb []
                (flat_map (fun k => map (fun _ => k) (filter (hit k) xs)) rows)) in
  Sorted (fun a b => b.(Knowledge.created_at) <= a.(Knowledge.created_at)) r
  /\ NoDup (map Knowledge.id r)
  /\ forall x, In x r <-> In x rows /\ exists b, In b xs /\ hit x b = true.
Proof.
  intros Hnd r.
  set (J := flat_map (fun k => map (fun _ => k) (filter (hit k) xs)) rows).
  assert (HJ : Forall (fun x => In x rows) J).
  { apply Forall_forall. intros x Hx. exact (proj1 (proj1 (join_in rows xs hit x) Hx)). }
  destruct (distinct_from_spec SqliteRepo.knowledge_eqb (fun x => In x rows) [] J
              (knowledge_eqb_pk rows Hnd) (Forall_nil _) HJ) as [Hin HnodupD].
  assert (Hperm : Permutation r (SqliteRepo.distinct_from SqliteRepo.knowledge_eqb [] J))
    by apply sort_by_perm.
  assert (Hmem : forall x, In x r <-> In x rows /\ exists b, In b xs /\ hit x b = true).
  { intros x. split.
    - intros Hx. apply (Permutation_in _ Hperm), Hin in Hx as [Hx _]. now apply join_in.
    - intros Hx. apply (Permutation_in _ (Permutation_sym Hperm)), Hin.
      split; [now apply join_in | intros []]. }
  split; [|split; [|exact Hmem]].
  - eapply Sorted_weaken; [|apply sort_by_sorted].
    + intros a b H. now apply Nat.leb_le.
    + intros a b. apply nat_leb_total.
  - apply (nodup_ids_incl _ rows); [|intros x Hx; now apply Hmem|exact Hnd].
    exact (Permutation_NoDup (Permutation_sym Hperm) HnodupD).
Qed.

(** With the primary key of the knowledge table in force, the sqlite
    [get_by_tag v] returns each entry at most once, newest first, and an
    entry is returned exactly when it owns a tag whose value is [v]. *)
Theorem sqlite_get_by_tag_exact (d : Store) (n : nat) (v : string) :
  primary_key_holds d ->
  run (SqliteRepo.get_by_tag v) d n = (inr (SqliteRepo.by_tag_rows d v), d)
  /\ Sorted (fun a b => b.(Knowledge.created_at) <= a.(Knowledge.created_at))
            (SqliteRepo.by_tag_rows d v)
  /\ NoDup (map Knowledge.id (SqliteRepo.by_tag_rows d v))
  /\ forall k, In k (SqliteRepo.by_tag_rows d v) <->
       In k d.(knowledge)
       /\ exists t, In t d.(knowledge_tags)
                    /\ t.(KnowledgeTag.knowledge_id) = k.(Knowledge.id)
                    /\ t.(KnowledgeTag.tag) = v.
Proof.
  intros Hpk. split; [reflexivity|].
  destruct (distinct_join_sorted d.(knowledge) d.(knowledge_tags)
              (fun k t => Nat.eqb k.(Knowledge.id) t.(KnowledgeTag.knowledge_id)
                          && String.eqb t.(KnowledgeTag.tag) v) Hpk) as [Hs [Hnd Hm]].
  split; [exact Hs|]. split; [exact Hnd|].
  intros k. unfold SqliteRepo.by_tag_rows. rewrite Hm.
  split; intros [Hk [t [Ht H]]]; split; auto; exists t; split; auto.
  - apply andb_true_iff in H as [H1 H2].
    apply Nat.eqb_eq in H1. apply String.eqb_eq in H2. auto.
  - destruct H as [H1 H2]. rewrite H1, H2, Nat.eqb_refl, String.eqb_refl. reflexivity.
Qed.

(** With the primary key of the knowledge table in force, the sqlite
    [get_by_link lt tid] returns each entry at most once, newest first,
    and an entry is returned exactly when it owns a link of type [lt] to
    [tid]. *)
Theorem sqlite_get_by_link_exact (d : Store) (n : nat) (lt : LinkType) (tid : UUID) :
  primary_key_holds d ->
  run (SqliteRepo.get_by_link lt tid) d n = (inr (SqliteRepo.by_link_rows d lt tid), d)
  /\ Sorted (fun a b => b.(Knowledge.created_at) <= a.(Knowledge.created_at))
            (SqliteRepo.by_link_rows d lt tid)
  /\ NoDup (map Knowledge.id (SqliteRepo.by_link_rows d lt tid))
  /\ forall k, In k (SqliteRepo.by_link_rows d lt tid) <->
       In k d.(knowledge)
       /\ exists l, In l d.(knowledge_links)
                    /\ l.(KnowledgeLink.knowledge_id) = k.(Knowledge.id)
                    /\ l.(KnowledgeLink.link_type) = lt
                    /\ l.(KnowledgeLink.target_id) = tid.
Proof.
  intros Hpk. split; [reflexivity|].
  destruct (distinct_join_sorted d.(knowledge) d.(knowledge_links)
              (fun k l => Nat.eqb k.(Knowledge.id) l.(KnowledgeLink.knowledge_id)
                          && link_type_eqb l.(KnowledgeLink.link_type) lt
                          && Nat.eqb l.(KnowledgeLink.target_id) tid) Hpk) as [Hs [Hnd Hm]].
  split; [exact Hs|]. split; [exact Hnd|].
  intros k. unfold SqliteRepo.by_link_rows. rewrite Hm.
  split; intros [Hk [l [Hl H]]]; split; auto; exists l; split; auto.
  - apply andb_true_iff in H as [H H3]. apply andb_true_iff in H as [H1 H2].
    apply Nat.eqb_eq in H1. apply Nat.eqb_eq in H3. split; [auto|]. split; [|exact H3].
    destruct (KnowledgeLink.link_type l), lt; try discriminate; reflexivity.
  - destruct H as [H1 [H2 H3]]. rewrite H1, H2, H3, !Nat.eqb_refl.
    destruct lt; reflexivity.
Qed.

(** ** [supersedes_id] of a new entry *)

(** The scripts' [cmd_add] of an entry whose [supersedes_id] names no
    entry (and is not its own id) raises [IntegrityError] and writes
    nothing, when its links exist. *)
Theorem cmd_add_dangling_supersedes (d : Store) (n : nat) (k : Knowledge.t) (p : UUID)
    (tags : list KnowledgeTag.t) (links : list KnowledgeLink.t) :
  k.(Knowledge.supersedes_id) = Some p ->
  ~ In p (knowledge_ids d) ->
  p <> k.(Knowledge.id) ->
  first_missing_target d links = None ->
  run (Scripts.cmd_add k tags links) d n = (inl IntegrityError, d).
Proof.
  intros Hs Hp Hpk Hm. rewrite cmd_add_run, Hm. cbn [apply_op]. unfold UUID in *.
  destruct (existsb (Nat.eqb (Knowledge.id k)) (knowledge_ids d)); [reflexivity|].
  rewrite Hs, existsb_app, (proj2 (existsb_eqb_notin _ _) Hp). cbn [existsb orb].
  rewrite (proj2 (Nat.eqb_neq _ _) Hpk). reflexivity.
Qed.


(** ** [parse_knowledge_json] *)

Lemma py_bind_inr {A B} (m : Py A) (f : A -> Py B) (n n' : nat) (b : B) :
  py_bind m f n = (inr b, n') -> exists a n1, m n = (inr a, n1) /\ f a n1 = (inr b, n').
Proof.
  unfold py_bind. destruct (m n) as [[e|a] n1]; [discriminate|]. intros H. now exists a, n1.
Qed.

Lemma py_lift_inr {A} (e : PyErr) (o : option A) (n n' : nat) (a : A) :
  py_lift e o n = (inr a, n') -> o = Some a /\ n' = n.
Proof. destruct o; cbn; intros H; [injection H as -> ->; auto | discriminate]. Qed.

Lemma py_ret_inr {A} (a b : A) (n n' : nat) : py_ret a n = (inr b, n') -> a = b /\ n' = n.
Proof. intros H; now injection H as -> ->. Qed.

(** The tag loop: one [KnowledgeTag] per value, each value a [str], with
    ids drawn in turn from [uuid4]. *)
Lemma parse_tags_inr (kid : UUID) (vs : list json) (n n' : nat) (tags : list KnowledgeTag.t) :
  py_map (parse_tag kid) vs n = (inr tags, n') ->
  map (fun t => JStr t.(KnowledgeTag.tag)) tags = vs
  /\ Forall (fun t => t.(KnowledgeTag.knowledge_id) = kid) tags
  /\ map KnowledgeTag.id tags = seq n (length vs)
  /\ n' = n + length vs.
Proof.
  revert n tags; induction vs as [|v vs IH]; intros n tags H; cbn [py_map] in H.
  - injection H as <- <-. cbn. now rewrite Nat.add_0_r.
  - apply py_bind_inr in H as [t [n1 [Ht H]]].
    apply py_bind_inr in H as [ts [n2 [Hts H]]].
    apply py_ret_inr in H as [<- ->].
    unfold parse_tag in Ht.
    apply py_bind_inr in Ht as [i [n3 [Hi Ht]]]. cbn in Hi. injection Hi as <- <-.
    apply py_bind_inr in Ht as [sv [n4 [Hs Ht]]].
    apply py_lift_inr in Hs as [Hs ->]. apply py_ret_inr in Ht as [<- ->].
    destruct (IH _ _ Hts) as (Hv & Ho & Hid & ->).
    destruct v; try discriminate. cbn in Hs. injection Hs as <-.
    cbn. rewrite Hv, Hid. split; [reflexivity|]. split; [now constructor|].
    split; [reflexivity | lia].
Qed.

Section ParseJson.

Context {L : PyLib}.

(** The link loop: one [KnowledgeLink] per value, each value a [dict]
    with both keys, with ids drawn in turn from [uuid4]. *)
Lemma parse_links_inr (kid : UUID) (vs : list json) (n n' : nat) (links : list KnowledgeLink.t) :
  py_map (parse_link kid) vs n = (inr links, n') ->
  Forall (fun v => exists o, v = JObj o /\ has_key o "link_type" = true
                             /\ has_key o "target_id" = true) vs
  /\ Forall (fun l => l.(KnowledgeLink.knowledge_id) = kid) links
  /\ map KnowledgeLink.id links = seq n (length vs)
  /\ n' = n + length vs.
Proof.
  revert n links; induction vs as [|v vs IH]; intros n links H; cbn [py_map] in H.
  - injection H as <- <-. cbn. now rewrite Nat.add_0_r.
  - apply py_bind_inr in H as [l [n1 [Hl H]]].
    apply py_bind_inr in H as [ls [n2 [Hls H]]].
    apply py_ret_inr in H as [<- ->].
    unfold parse_link in Hl.
    apply py_bind_inr in Hl as [b1 [n3 [Hb1 Hl]]]. apply py_lift_inr in Hb1 as [Hty ->].
    destruct b1; cbn [negb] in Hl; [|discriminate].
    apply py_bind_inr in Hl as [b2 [n4 [Hb2 Hl]]]. apply py_lift_inr in Hb2 as [Hta ->].
    destruct b2; cbn [negb] in Hl; [|discriminate].
    apply py_bind_inr in Hl as [lv [n5 [Hlv Hl]]]. apply py_lift_inr in Hlv as [Hg1 ->].
    apply py_bind_inr in Hl as [lt [n6 [Hlt Hl]]]. apply py_lift_inr in Hlt as [_ ->].
    apply py_bind_inr in Hl as [tv [n7 [Htv Hl]]]. apply py_lift_inr in Htv as [_ ->].
    apply py_bind_inr in Hl as [tid [n8 [Htid Hl]]].
    apply py_bind_inr in Hl as [i [n9 [Hi Hl]]].
    apply py_ret_inr in Hl as [<- ->].
    assert (Hn8 : n8 = n).
    { destruct tv; cbn in Htid; try discriminate.
      destruct (uuid_of_string s); cbn in Htid; [now injection Htid as _ <- | discriminate]. }
    subst n8. cbn in Hi. injection Hi as <- <-.
    destruct (IH _ _ Hls) as (Hv & Ho & Hid & ->).
    assert (Hobj : exists o, v = JObj o /\ has_key o "link_type" = true
                             /\ has_key o "target_id" = true).
    { destruct v; try discriminate. cbn in Hty, Hta.
      injection Hty as Hty. injection Hta as Hta. exists kvs. auto. }
    cbn. split; [now constructor|]. split; [now constructor|].
    rewrite Hid. split; [reflexivity | lia].
Qed.

Lemma new_knowledge_inr (now : datetime) (ty : KnowledgeType) (s c q : json) (sup : option UUID)
    (r : json) (n n' : nat) (k : Knowledge.t) :
  new_knowledge now ty s c q sup r n = (inr k, n') ->
  k.(Knowledge.id) = n /\ k.(Knowledge.status) = ACTIVE /\ k.(Knowledge.created_at) = now
  /\ k.(Knowledge.type_) = ty /\ k.(Knowledge.supersedes_id) = sup
  /\ str_field s = Some k.(Knowledge.summary) /\ str_field c = Some k.(Knowledge.content)
  /\ float_of_json q = Some k.(Knowledge.confidence)
  /\ opt_str_field r = Some k.(Knowledge.supersession_reason)
  /\ (0 <= k.(Knowledge.confidence) <= 1)%Q /\ n' = S n.
Proof.
  unfold new_knowledge. intros H.
  apply py_bind_inr in H as [i [n1 [Hi H]]]. cbn in Hi. injection Hi as <- <-.
  destruct (str_field s) as [ss|] eqn:Es, (str_field c) as [cc|] eqn:Ec,
    (float_of_json q) as [qq|] eqn:Eq, (opt_str_field r) as [rr|] eqn:Er;
    try discriminate.
  apply py_lift_inr in H as [Hk ->]. unfold make_knowledge in Hk.
  destruct (validate_confidence qq) as [c'|] eqn:Ev; [|discriminate].
  injection Hk as <-. cbn.
  assert (c' = qq) as ->.
  { unfold validate_confidence in Ev. destruct (Qltb qq 0 || Qltb 1 qq); [discriminate|].
    now injection Ev. }
  repeat split; try reflexivity.
  - apply Qnot_lt_le. intros Hlt. apply (proj2 (Qltb_spec qq 0)) in Hlt.
    unfold validate_confidence in Ev. rewrite Hlt in Ev. discriminate.
  - apply Qnot_lt_le. intros Hlt. apply (proj2 (Qltb_spec 1 qq)) in Hlt.
    unfold validate_confidence in Ev. rewrite Hlt, orb_true_r in Ev. discriminate.
Qed.

(** What [parse_knowledge_json] returns when it returns: a new entry
    with a fresh id, status [ACTIVE] and the current time as [created_at],
    whatever the input says about them; tags and
    links that all belong to that entry; and fresh ids for all of them,
    drawn from [uuid4] in turn (entry, tags, links), so that no two of the
    objects share an id. *)
Theorem parse_knowledge_json_result (now : datetime) (data : json) (n n' : nat)
    (k : Knowledge.t) (tags : list KnowledgeTag.t) (links : list KnowledgeLink.t) :
  parse_knowledge_json now data n = (inr (k, tags, links), n') ->
  k.(Knowledge.id) = n /\ k.(Knowledge.status) = ACTIVE /\ k.(Knowledge.created_at) = now
  /\ Forall (fun t => t.(KnowledgeTag.knowledge_id) = k.(Knowledge.id)) tags
  /\ Forall (fun l => l.(KnowledgeLink.knowledge_id) = k.(Knowledge.id)) links
  /\ k.(Knowledge.id) :: map KnowledgeTag.id tags ++ map KnowledgeLink.id links
     = seq n (1 + length tags + length links)
  /\ n' = n + 1 + length tags + length links.
Proof.
  unfold parse_knowledge_json. intros H.
  apply py_bind_inr in H as [u [n1 [Hreq H]]].
  apply py_bind_inr in H as [tv [n2 [Htv H]]]. apply py_lift_inr in Htv as [_ ->].
  apply py_bind_inr in H as [ty [n3 [Hty H]]]. apply py_lift_inr in Hty as [_ ->].
  apply py_bind_inr in H as [sv [n4 [Hsv H]]]. apply py_lift_inr in Hsv as [_ ->].
  apply py_bind_inr in H as [cv [n5 [Hcv H]]]. apply py_lift_inr in Hcv as [_ ->].
  apply py_bind_inr in H as [qv [n6 [Hqv H]]]. apply py_lift_inr in Hqv as [_ ->].
  apply py_bind_inr in H as [sup [n7 [Hsup H]]].
  apply py_bind_inr in H as [rv [n8 [Hrv H]]]. apply py_lift_inr in Hrv as [_ ->].
  apply py_bind_inr in H as [k' [n9 [Hk H]]].
  apply py_bind_inr in H as [tgs [n10 [Htgs H]]]. apply py_lift_inr in Htgs as [_ ->].
  apply py_bind_inr in H as [tvals [n11 [Htvals H]]]. apply py_lift_inr in Htvals as [_ ->].
  apply py_bind_inr in H as [tags' [n12 [Htags H]]].
  apply py_bind_inr in H as [lks [n13 [Hlks H]]]. apply py_lift_inr in Hlks as [_ ->].
  apply py_bind_inr in H as [lvals [n14 [Hlvals H]]]. apply py_lift_inr in Hlvals as [_ ->].
  apply py_bind_inr in H as [links' [n15 [Hlinks H]]].
  apply py_ret_inr in H as [E ->]. injection E as -> -> ->.
  assert (Hn1 : n1 = n).
  { clear -Hreq. revert Hreq. generalize required_fields. intros fs.
    induction fs as [|f fs IH]; cbn; intros H; [now injection H as _ <-|].
    apply py_bind_inr in H as [b [m [Hb H]]]. apply py_lift_inr in Hb as [_ ->].
    destruct b; [exact (IH H) | discriminate]. }
  assert (Hn7 : n7 = n1).
  { unfold parse_supersedes in Hsup.
    apply py_bind_inr in Hsup as [sv' [m [Hs' Hsup]]]. apply py_lift_inr in Hs' as [_ ->].
    destruct (truthy sv'); [|now injection Hsup as _ <-].
    apply py_bind_inr in Hsup as [u' [m' [Hu Hsup]]]. injection Hsup as _ <-.
    destruct sv'; cbn in Hu; try discriminate.
    destruct (uuid_of_string s); cbn in Hu; [now injection Hu as _ <- | discriminate]. }
  subst n7 n1.
  destruct (new_knowledge_inr _ _ _ _ _ _ _ _ _ _ Hk)
    as (Hid & Hst & Hca & _ & _ & _ & _ & _ & _ & _ & ->).
  destruct (parse_tags_inr _ _ _ _ _ Htags) as (Htv & Hto & Hti & ->).
  destruct (parse_links_inr _ _ _ _ _ Hlinks) as (_ & Hlo & Hli & ->).
  assert (Hlt : length tags = length tvals)
    by (rewrite <- Htv, length_map; reflexivity).
  assert (Hll : length links = length lvals)
    by (pose proof (f_equal (@length _) Hli) as E; rewrite length_map, length_seq in E; exact E).
  rewrite Hid in *. split; [reflexivity|]. split; [exact Hst|]. split; [exact Hca|].
  split; [exact Hto|]. split; [exact Hlo|].
  rewrite Hti, Hli, Hlt, Hll. split.
  - replace (1 + length tvals + length lvals) with (S (length tvals + length lvals)) by lia.
    cbn [seq]. f_equal. rewrite seq_app. reflexivity.
  - lia.
Qed.

Lemma require_fields_missing (kvs : list (string * json)) (fs : list string) (f : string) (n : nat) :
  find (fun g => negb (has_key kvs g)) fs = Some f ->
  require_fields (JObj kvs) fs n = (inl (MissingField f), n).
Proof.
  induction fs as [|g fs IH]; cbn; [discriminate|].
  unfold has_key. destruct (existsb (fun kv => String.eqb (fst kv) g) kvs); cbn.
  - exact IH.
  - intros H. now injection H as ->.
Qed.

(** On a [dict] that lacks one of [type], [summary], [content] and
    [confidence], [parse_knowledge_json] raises the error naming the first
    one missing, in that order, and draws no id from [uuid4]. *)
Theorem parse_knowledge_json_missing_field (now : datetime) (kvs : list (string * json))
    (f : string) (n : nat) :
  find (fun g => negb (has_key kvs g)) required_fields = Some f ->
  parse_knowledge_json now (JObj kvs) n = (inl (MissingField f), n).
Proof.
  intros H. unfold parse_knowledge_json, py_bind at 1.
  now rewrite (require_fields_missing _ _ _ _ H).
Qed.

(** The [tags] value of a [dict] is iterated as Python does: whenever
    [parse_knowledge_json] succeeds, the tags it returns, in order, are
    the items of that iteration (the elements of a list, the characters
    of a string, the keys of a dict, nothing when the key is absent). *)
Theorem parse_knowledge_json_tags_iterated (now : datetime) (kvs : list (string * json))
    (n n' : nat) (k : Knowledge.t) (tags : list KnowledgeTag.t) (links : list KnowledgeLink.t) :
  parse_knowledge_json now (JObj kvs) n = (inr (k, tags, links), n') ->
  py_iter (match obj_get kvs "tags" with Some v => v | None => JArr [] end)
  = Some (map (fun t => JStr t.(KnowledgeTag.tag)) tags).
Proof.
  unfold parse_knowledge_json. intros H.
  apply py_bind_inr in H as [u [n1 [_ H]]].
  apply py_bind_inr in H as [tv [n2 [_ H]]].
  apply py_bind_inr in H as [ty [n3 [_ H]]].
  apply py_bind_inr in H as [sv [n4 [_ H]]].
  apply py_bind_inr in H as [cv [n5 [_ H]]].
  apply py_bind_inr in H as [qv [n6 [_ H]]].
  apply py_bind_inr in H as [sup [n7 [_ H]]].
  apply py_bind_inr in H as [rv [n8 [_ H]]].
  apply py_bind_inr in H as [k' [n9 [_ H]]].
  apply py_bind_inr in H as [tgs [n10 [Htgs H]]]. apply py_lift_inr in Htgs as [Htgs ->].
  apply py_bind_inr in H as [tvals [n11 [Htvals H]]]. apply py_lift_inr in Htvals as [Htvals ->].
  apply py_bind_inr in H as [tags' [n12 [Htags H]]].
  apply py_bind_inr in H as [lks [n13 [_ H]]].
  apply py_bind_inr in H as [lvals [n14 [_ H]]].
  apply py_bind_inr in H as [links' [n15 [_ H]]].
  apply py_ret_inr in H as [E ->]. injection E as -> -> ->.
  destruct (parse_tags_inr _ _ _ _ _ Htags) as (Htv & _).
  cbn in Htgs. injection Htgs as <-. now rewrite Htvals, Htv.
Qed.

End ParseJson.

(** ** Witnesses of the further properties *)

Lemma sqlite_supersede_outcome_witness :
  run (SqliteRepo.supersede 1 new_fact) store_tagged 0
    = (inr (Knowledge.set_supersedes_id new_fact (Some 1)),
       mkStore (SqliteRepo.deprecate_rows 1
                  (store_tagged.(knowledge) ++ [Knowledge.set_supersedes_id new_fact (Some 1)]))
               store_tagged.(knowledge_tags) store_tagged.(knowledge_links)
               store_tagged.(other_rows))
  /\ In 1 (knowledge_ids store_tagged)
  /\ run (SqliteRepo.supersede 2 (sample_fact 1 ACTIVE 5)) store_tagged 0
     = (inl IntegrityError, store_tagged).
Proof.
  assert (H1 : In 1 (knowledge_ids store_tagged)) by (vm_compute; tauto).
  pose proof (sqlite_supersede_outcome store_tagged store_tagged 0 2 (sample_fact 1 ACTIVE 5)
                (sample_fact 1 ACTIVE 5)) as [_ Hfail].
  split; [vm_compute; reflexivity|]. split; [exact H1|].
  apply Hfail. left. exact H1.
Defined.

Lemma cmd_add_not_atomic_witness :
  let d1 := mkStore (store_tagged.(knowledge) ++ [new_fact]) store_tagged.(knowledge_tags)
                    store_tagged.(knowledge_links) store_tagged.(other_rows) in
  first_missing_target store_tagged new_links = None
  /\ apply_op store_tagged (InsertKnowledge new_fact) = Some d1
  /\ apply_ops d1 (map InsertTag [clashing_tag]) = None
  /\ fst (run (Scripts.cmd_add new_fact [clashing_tag] new_links) store_tagged 0)
     = inl IntegrityError
  /\ find_knowledge
       (snd (run (Scripts.cmd_add new_fact [clashing_tag] new_links) store_tagged 0)).(knowledge)
       new_fact.(Knowledge.id) = Some new_fact.
Proof.
  intros d1.
  assert (H1 : first_missing_target store_tagged new_links = None) by (vm_compute; reflexivity).
  assert (H2 : apply_op store_tagged (InsertKnowledge new_fact) = Some d1)
    by (vm_compute; reflexivity).
  assert (H3 : apply_ops d1 (map InsertTag [clashing_tag]) = None) by (vm_compute; reflexivity).
  split; [exact H1|]. split; [exact H2|]. split; [exact H3|].
  exact (cmd_add_not_atomic store_tagged 0 new_fact [clashing_tag] new_links d1 H1 H2 H3).
Defined.

Lemma scripts_cmd_supersede_output_witness :
  let d' := snd (run (Scripts.cmd_supersede 1 new_fact [tag_of_99] [link_of_99]) store_tagged 21) in
  Forall (fun t => t.(KnowledgeTag.id) < 21) store_tagged.(knowledge_tags)
  /\ run (Scripts.cmd_supersede 1 new_fact [tag_of_99] [link_of_99]) store_tagged 21
     = (inr (Knowledge.set_supersedes_id new_fact (Some 1), [KnowledgeTag.mk 23 5 "folate"],
             [KnowledgeLink.mk 22 5 SNP 50]), d')
  /\ map tag_value [KnowledgeTag.mk 23 5 "folate"] = map tag_value [tag_of_99]
  /\ Forall (fun t => ~ In t.(KnowledgeTag.id) (map KnowledgeTag.id d'.(knowledge_tags)))
            [KnowledgeTag.mk 23 5 "folate"].
Proof.
  intros d'.
  assert (H1 : Forall (fun t => t.(KnowledgeTag.id) < 21) store_tagged.(knowledge_tags))
    by (vm_compute; repeat constructor; lia).
  assert (H2 : run (Scripts.cmd_supersede 1 new_fact [tag_of_99] [link_of_99]) store_tagged 21
               = (inr (Knowledge.set_supersedes_id new_fact (Some 1),
                       [KnowledgeTag.mk 23 5 "folate"], [KnowledgeLink.mk 22 5 SNP 50]), d'))
    by (vm_compute; reflexivity).
  split; [exact H1|]. split; [exact H2|].
  destruct (scripts_cmd_supersede_output store_tagged d' 21 1 new_fact _ [tag_of_99] [link_of_99]
              _ _ H1 H2) as (_ & _ & _ & _ & Hv & Hf).
  exact (conj Hv Hf).
Defined.

Lemma sqlite_commands_keep_schema_witness :
  store_wf store_tagged
  /\ store_wf (snd (run (Scripts.cmd_add new_fact new_tags new_links) store_tagged 0))
  /\ store_wf (snd (run (Scripts.cmd_supersede 1 new_fact new_tags new_links) store_tagged 0))
  /\ store_wf (snd (run (SqliteRepo.supersede 1 new_fact) store_tagged 0)).
Proof.
  split; [exact store_tagged_wf|].
  exact (sqlite_commands_keep_schema store_tagged 0 1 new_fact new_tags new_links
           store_tagged_wf).
Defined.

Lemma cmd_add_round_trip_witness :
  let d' := after (Scripts.cmd_add new_fact new_tags new_links) store_tagged in
  foreign_keys_hold store_tagged
  /\ run (Scripts.cmd_add new_fact new_tags new_links) store_tagged 0 = (inr tt, d')
  /\ run (SqliteRepo.get_by_id new_fact.(Knowledge.id)) d' 0 = (inr (Some new_fact), d')
  /\ Permutation (tags_for_knowledge d' new_fact.(Knowledge.id))
       (filter (fun t => Nat.eqb t.(KnowledgeTag.knowledge_id) new_fact.(Knowledge.id)) new_tags)
  /\ Permutation (links_for_knowledge d' new_fact.(Knowledge.id))
       (filter (fun l => Nat.eqb l.(KnowledgeLink.knowledge_id) new_fact.(Knowledge.id))
               new_links).
Proof.
  intros d'.
  assert (Hfk : foreign_keys_hold store_tagged) by (unfold foreign_keys_hold; concrete_prop).
  assert (H : run (Scripts.cmd_add new_fact new_tags new_links) store_tagged 0 = (inr tt, d'))
    by (vm_compute; reflexivity).
  split; [exact Hfk|]. split; [exact H|].
  destruct (cmd_add_round_trip store_tagged d' 0 new_fact new_tags new_links Hfk H)
    as (Hg & _ & Pt & _ & Pl).
  exact (conj Hg (conj Pt Pl)).
Defined.

Lemma sqlite_get_by_tag_exact_witness :
  primary_key_holds store_tagged
  /\ run (SqliteRepo.get_by_tag "mthfr") store_tagged 0
     = (inr (SqliteRepo.by_tag_rows store_tagged "mthfr"), store_tagged)
  /\ Sorted (fun a b => b.(Knowledge.created_at) <= a.(Knowledge.created_at))
            (SqliteRepo.by_tag_rows store_tagged "mthfr")
  /\ NoDup (map Knowledge.id (SqliteRepo.by_tag_rows store_tagged "mthfr"))
  /\ forall k, In k (SqliteRepo.by_tag_rows store_tagged "mthfr") <->
       In k store_tagged.(knowledge)
       /\ exists t, In t store_tagged.(knowledge_tags)
                    /\ t.(KnowledgeTag.knowledge_id) = k.(Knowledge.id)
                    /\ t.(KnowledgeTag.tag) = "mthfr"%string.
Proof.
  assert (Hpk : primary_key_holds store_tagged) by (unfold primary_key_holds; concrete_prop).
  split; [exact Hpk|].
  exact (sqlite_get_by_tag_exact store_tagged 0 "mthfr" Hpk).
Defined.

Lemma sqlite_get_by_link_exact_witness :
  primary_key_holds store_tagged
  /\ run (SqliteRepo.get_by_link SNP 50) store_tagged 0
     = (inr (SqliteRepo.by_link_rows store_tagged SNP 50), store_tagged)
  /\ Sorted (fun a b => b.(Knowledge.created_at) <= a.(Knowledge.created_at))
            (SqliteRepo.by_link_rows store_tagged SNP 50)
  /\ NoDup (map Knowledge.id (SqliteRepo.by_link_rows store_tagged SNP 50))
  /\ forall k, In k (SqliteRepo.by_link_rows store_tagged SNP 50) <->
       In k store_tagged.(knowledge)
       /\ exists l, In l store_tagged.(knowledge_links)
                    /\ l.(KnowledgeLink.knowledge_id) = k.(Knowledge.id)
                    /\ l.(KnowledgeLink.link_type) = SNP
                    /\ l.(KnowledgeLink.target_id) = 50.
Proof.
  assert (Hpk : primary_key_holds store_tagged) by (unfold primary_key_holds; concrete_prop).
  split; [exact Hpk|].
  exact (sqlite_get_by_link_exact store_tagged 0 SNP 50 Hpk).
Defined.

Lemma cmd_add_dangling_supersedes_witness :
  dangling_fact.(Knowledge.supersedes_id) = Some 9
  /\ ~ In 9 (knowledge_ids store_tagged)
  /\ 9 <> dangling_fact.(Knowledge.id)
  /\ first_missing_target store_tagged new_links = None
  /\ run (Scripts.cmd_add dangling_fact new_tags new_links) store_tagged 0
     = (inl IntegrityError, store_tagged).
Proof.
  assert (H1 : dangling_fact.(Knowledge.supersedes_id) = Some 9) by reflexivity.
  assert (H2 : ~ In 9 (knowledge_ids store_tagged)) by concrete_prop.
  assert (H3 : 9 <> dangling_fact.(Knowledge.id)) by (vm_compute; lia).
  assert (H4 : first_missing_target store_tagged new_links = None) by (vm_compute; reflexivity).
  split; [exact H1|]. split; [exact H2|]. split; [exact H3|]. split; [exact H4|].
  exact (cmd_add_dangling_supersedes store_tagged 0 dangling_fact 9 new_tags new_links
           H1 H2 H3 H4).
Defined.

Lemma parse_knowledge_json_result_witness :
  let k := Knowledge.mk 0 INSIGHT ACTIVE "s" "c" (1 # 2) None None 7 in
  let tags := [KnowledgeTag.mk 1 0 "a"; KnowledgeTag.mk 2 0 "b"] in
  let links := [KnowledgeLink.mk 3 0 SNP 2] in
  @parse_knowledge_json lib_demo 7 demo_json 0 = (inr (k, tags, links), 4)
  /\ (k.(Knowledge.id) = 0 /\ k.(Knowledge.status) = ACTIVE /\ k.(Knowledge.created_at) = 7
      /\ Forall (fun t => t.(KnowledgeTag.knowledge_id) = k.(Knowledge.id)) tags
      /\ Forall (fun l => l.(KnowledgeLink.knowledge_id) = k.(Knowledge.id)) links
      /\ k.(Knowledge.id) :: map KnowledgeTag.id tags ++ map KnowledgeLink.id links
         = seq 0 (1 + length tags + length links)
      /\ 4 = 0 + 1 + length tags + length links).
Proof.
  intros k tags links.
  assert (H : @parse_knowledge_json lib_demo 7 demo_json 0 = (inr (k, tags, links), 4))
    by (vm_compute; reflexivity).
  split; [exact H|].
  exact (parse_knowledge_json_result (L := lib_demo) 7 demo_json 0 4 k tags links H).
Defined.

Lemma parse_knowledge_json_missing_field_witness :
  find (fun g => negb (has_key demo_kvs_missing g)) required_fields = Some "summary"%string
  /\ @parse_knowledge_json lib_demo 7 (JObj demo_kvs_missing) 0
     = (inl (MissingField "summary"), 0).
Proof.
  assert (H : find (fun g => negb (has_key demo_kvs_missing g)) required_fields
              = Some "summary"%string) by (vm_compute; reflexivity).
  split; [exact H|].
  exact (parse_knowledge_json_missing_field (L := lib_demo) 7 demo_kvs_missing _ 0 H).
Defined.

Lemma parse_knowledge_json_tags_iterated_witness :
  let k := Knowledge.mk 0 MEMORY ACTIVE "s" "c" 1 None None 7 in
  let tags := [KnowledgeTag.mk 1 0 "a"; KnowledgeTag.mk 2 0 "b"] in
  @parse_knowledge_json lib_demo 7 (JObj demo_kvs_string_tags) 0 = (inr (k, tags, []), 3)
  /\ py_iter (match obj_get demo_kvs_string_tags "tags" with Some v => v | None => JArr [] end)
     = Some (map (fun t => JStr t.(KnowledgeTag.tag)) tags).
Proof.
  intros k tags.
  assert (H : @parse_knowledge_json lib_demo 7 (JObj demo_kvs_string_tags) 0
              = (inr (k, tags, []), 3)) by (vm_compute; reflexivity).
  split; [exact H|].
  exact (parse_knowledge_json_tags_iterated (L := lib_demo) 7 demo_kvs_string_tags 0 3
           k tags [] H).
Defined.


Section Reparse.

Context {L : PyLib}.

Lemma KnowledgeType_of_value (ty : KnowledgeType) :
  KnowledgeType_of (JStr (knowledge_type_value ty)) = Some ty.
Proof. destruct ty; reflexivity. Qed.

Lemma LinkType_of_value (lt : LinkType) : LinkType_of (JStr (link_type_value lt)) = Some lt.
Proof. destruct lt; reflexivity. Qed.

Lemma parse_link_printed (kid : UUID) (l : KnowledgeLink.t) (m : nat) :
  uuid_of_string (str_of_uuid l.(KnowledgeLink.target_id)) = Some l.(KnowledgeLink.target_id) ->
  parse_link kid (link_to_dict l) m
  = (inr (KnowledgeLink.mk m kid l.(KnowledgeLink.link_type) l.(KnowledgeLink.target_id)), S m).
Proof.
  intros Hl. unfold parse_link, link_to_dict. cbn -[LinkType_of link_type_value].
  rewrite LinkType_of_value. cbn. now rewrite Hl.
Qed.

Lemma parse_links_printed (kid : UUID) (links : list KnowledgeLink.t) (m : nat) :
  Forall (fun l => uuid_of_string (str_of_uuid l.(KnowledgeLink.target_id))
                   = Some l.(KnowledgeLink.target_id)) links ->
  py_map (parse_link kid) (map link_to_dict links) m
  = (inr (fresh_links m kid (map link_target links)), m + length links).
Proof.
  revert m; induction links as [|l links IH]; intros m Hu; cbn [map py_map].
  - cbn. now rewrite Nat.add_0_r.
  - inversion Hu as [|? ? Hl Hrest]; subst.
    unfold py_bind at 1. rewrite (parse_link_printed kid l m Hl).
    unfold py_bind. rewrite (IH (S m) Hrest). cbn.
    destruct l as [i o lt tid]. unfold py_ret. f_equal. lia.
Qed.

(** [cmd_create] fed with the JSON that [cmd_create], [cmd_get] and
    [cmd_add] print for an entry. *)
Theorem entry_json_reparse (now : datetime) (k : Knowledge.t) (tags : list KnowledgeTag.t)
    (links : list KnowledgeLink.t) (n : nat) :
  (0 <= k.(Knowledge.confidence) <= 1)%Q ->
  float_of_json (JNum k.(Knowledge.confidence)) = Some k.(Knowledge.confidence) ->
  match k.(Knowledge.supersedes_id) with
  | Some p => str_of_uuid p <> ""%string /\ uuid_of_string (str_of_uuid p) = Some p
  | None => True
  end ->
  Forall (fun l => uuid_of_string (str_of_uuid l.(KnowledgeLink.target_id))
                   = Some l.(KnowledgeLink.target_id)) links ->
  parse_knowledge_json now (entry_json k tags links) n =
  match tags with
  | [] => (inr (Knowledge.mk n k.(Knowledge.type_) ACTIVE k.(Knowledge.summary)
                  k.(Knowledge.content) k.(Knowledge.confidence) k.(Knowledge.supersedes_id)
                  k.(Knowledge.supersession_reason) now,
                [], fresh_links (S n) n (map link_target links)),
           S n + length links)
  | _ :: _ => (inl InvalidValue, S (S n))
  end.
Proof.
  intros Hc Hq Hs Hl.
  unfold parse_knowledge_json, entry_json, knowledge_to_dict.
  cbn -[KnowledgeType_of knowledge_type_value new_knowledge parse_supersedes py_map].
  rewrite KnowledgeType_of_value. cbn -[new_knowledge parse_supersedes py_map].
  match goal with |- context [parse_supersedes ?D] =>
    assert (Hsup : forall m, parse_supersedes D m = (inr k.(Knowledge.supersedes_id), m)) end.
  { intros m. unfold parse_supersedes. cbn.
    destruct (Knowledge.supersedes_id k) as [p|]; cbn; [|reflexivity].
    destruct Hs as [Hne Hu]. apply String.eqb_neq in Hne. rewrite Hne. cbn.
    now rewrite Hu. }
  unfold py_bind at 1. rewrite Hsup.
  set (r := match Knowledge.supersession_reason k with Some r => JStr r | None => JNull end).
  assert (Hk : new_knowledge now (Knowledge.type_ k) (JStr (Knowledge.summary k))
                 (JStr (Knowledge.content k)) (JNum (Knowledge.confidence k))
                 (Knowledge.supersedes_id k) r n
               = (inr (Knowledge.mk n k.(Knowledge.type_) ACTIVE k.(Knowledge.summary)
                         k.(Knowledge.content) k.(Knowledge.confidence)
                         k.(Knowledge.supersedes_id) k.(Knowledge.supersession_reason) now),
                  S n)).
  { unfold new_knowledge, py_bind, py_uuid4. cbn [str_field]. rewrite Hq.
    assert (Hr : opt_str_field r = Some k.(Knowledge.supersession_reason))
      by (unfold r; destruct (Knowledge.supersession_reason k); reflexivity).
    rewrite Hr. unfold make_knowledge. rewrite (proj2 (validate_confidence_spec _) Hc).
    reflexivity. }
  cbn -[new_knowledge py_map]. unfold py_bind at 1. rewrite Hk.
  cbn -[py_map]. destruct tags as [|t ts].
  - cbn [py_map map]. cbn -[py_map]. unfold py_bind at 1.
    rewrite (parse_links_printed n links (S n) Hl).
    reflexivity.
  - reflexivity.
Qed.

End Reparse.

Lemma entry_json_reparse_witness :
  (0 <= printed_fact.(Knowledge.confidence) <= 1)%Q
  /\ @float_of_json lib_demo (JNum printed_fact.(Knowledge.confidence))
     = Some printed_fact.(Knowledge.confidence)
  /\ (@str_of_uuid lib_demo 4 <> ""%string
      /\ @uuid_of_string lib_demo (@str_of_uuid lib_demo 4) = Some 4)
  /\ Forall (fun l => @uuid_of_string lib_demo (@str_of_uuid lib_demo l.(KnowledgeLink.target_id))
                      = Some l.(KnowledgeLink.target_id)) printed_links
  /\ @parse_knowledge_json lib_demo 9 (@entry_json lib_demo printed_fact [] printed_links) 0
     = (inr (Knowledge.mk 0 RECOMMENDATION ACTIVE "s" "c" (1 # 2) (Some 4) (Some "r"%string) 9,
             [], fresh_links 1 0 (map link_target printed_links)),
        1 + length printed_links).
Proof.
  assert (Hc : (0 <= printed_fact.(Knowledge.confidence) <= 1)%Q)
    by (split; apply Qle_bool_imp_le; reflexivity).
  assert (Hq : @float_of_json lib_demo (JNum printed_fact.(Knowledge.confidence))
               = Some printed_fact.(Knowledge.confidence)) by reflexivity.
  assert (Hs : @str_of_uuid lib_demo 4 <> ""%string
               /\ @uuid_of_string lib_demo (@str_of_uuid lib_demo 4) = Some 4)
    by (vm_compute; split; [discriminate | reflexivity]).
  assert (Hl : Forall (fun l => @uuid_of_string lib_demo
                                  (@str_of_uuid lib_demo l.(KnowledgeLink.target_id))
                                = Some l.(KnowledgeLink.target_id)) printed_links)
    by (vm_compute; repeat constructor).
  split; [exact Hc|]. split; [exact Hq|]. split; [exact Hs|]. split; [exact Hl|].
  exact (@entry_json_reparse lib_demo 9 printed_fact [] printed_links 0 Hc Hq Hs Hl).
Defined.
